(** * Task manager of the os3 kernel (src/os3/src/task.rs)

    A shallow embedding of the scheduler state ([TaskManager]), the per-task
    statistics ([TaskStat]) and the public operations that mutate them.

    Modelling conventions:
    - a Rust panic (index out of bounds, failed [assert!], failed [expect],
      remainder by zero) is the [Panic] outcome; [finish] (print then
      [sbi::shutdown]) is the [Shutdown] outcome, which never returns;
    - [usize] time values are [N] with the 64-bit wrap-around written out
      (the kernel is built in the release profile, where [+=] wraps); the
      [u32] syscall counters wrap at 2^32;
    - each call of [time::get_time] is an explicit argument of the
      operation that performs it;
    - task indices are [nat]: they never exceed [MAX_TASK_NUM];
    - the saved [TaskContext] of task [i] is only ever handed out as a
      pointer, modelled by its location [CxOf i];
    - copying an application image into memory ([load_task]) is not
      modelled, only the table lookups and the status write. *)

From stdpp Require Import base list numbers strings.
From Stdlib Require Import Lia.

Open Scope string_scope.

(** ** Outcomes: normal return, panic, or power-off *)

Inductive Outcome (A : Type) : Type :=
| Ret (a : A)
| Panic (msg : string)
| Shutdown (log : list string).
Arguments Ret {A} a.
Arguments Panic {A} msg.
Arguments Shutdown {A} log.

Definition obind {A B} (o : Outcome A) (k : A -> Outcome B) : Outcome B :=
  match o with
  | Ret a => k a
  | Panic m => Panic m
  | Shutdown l => Shutdown l
  end.

Notation "x <-- c ;; k" := (obind c (fun x => k))
  (at level 100, c at next level, right associativity).

(** [l[i]] in Rust: panics when [i] is out of bounds. *)
Definition index {A} (l : list A) (i : nat) : Outcome A :=
  match l !! i with
  | Some x => Ret x
  | None => Panic "index out of bounds"
  end.

(** [a % b] on [usize]: panics when [b = 0]. *)
Definition rem_usize (a b : nat) : Outcome nat :=
  if decide (b = 0) then Panic "attempt to calculate the remainder with a divisor of zero"
  else Ret (a mod b).

Definition usize_wrap (x : N) : N := (x mod 2 ^ 64)%N.
Definition u32_wrap (x : N) : N := (x mod 2 ^ 32)%N.

(** [fn finish() -> !]: prints the completion message and powers off. *)
Definition finish {A} : Outcome A :=
  Shutdown ["[kernel] All apps have completed."].

(** ** Data model *)

Definition MAX_TASK_NUM : nat := 32.

Inductive TaskStatus : Type :=
| UnInit
| Ready
| Running
| Exited.

Global Instance TaskStatus_eq_dec : EqDecision TaskStatus.
Proof. solve_decision. Defined.

Record TaskStat : Type := mkTaskStat {
  cpu_clocks : N;
  first_scheduled : option N;
  last_scheduled : option N;
  syscall_times : list N
}.

(** [impl Default for TaskStat]; [MAX_SYSCALL_NUM] comes from the syscall
    module and is a parameter here. *)
Definition TaskStat_default (MAX_SYSCALL_NUM : nat) : TaskStat :=
  mkTaskStat 0%N None None (replicate MAX_SYSCALL_NUM 0%N).

(** [TaskStat::record_schedule_begin]; [now] is the [time::get_time()] read. *)
Definition record_schedule_begin (now : N) (s : TaskStat) : TaskStat :=
  match last_scheduled s with
  | None => mkTaskStat (cpu_clocks s) (Some now) (Some now) (syscall_times s)
  | Some _ => mkTaskStat (cpu_clocks s) (first_scheduled s) (Some now) (syscall_times s)
  end.

(** [TaskStat::record_schedule_end]: [checked_sub(..).expect(..)] panics
    when the clock went backward; [+=] wraps at 2^64. *)
Definition record_schedule_end (now : N) (s : TaskStat) : Outcome TaskStat :=
  match last_scheduled s with
  | None => Ret s
  | Some last =>
      if decide (now < last)%N then Panic "time goes backward"
      else Ret (mkTaskStat (usize_wrap (cpu_clocks s + (now - last)))
                  (first_scheduled s) (last_scheduled s) (syscall_times s))
  end.

(** [TaskStat::record_syscall]: [self.syscall_times[syscall] += 1] on a
    [[u32; MAX_SYSCALL_NUM]]. *)
Definition stat_record_syscall (syscall : nat) (s : TaskStat) : Outcome TaskStat :=
  c <-- index (syscall_times s) syscall ;;
  Ret (mkTaskStat (cpu_clocks s) (first_scheduled s) (last_scheduled s)
         (<[syscall := u32_wrap (c + 1)]> (syscall_times s))).

(** Location of a saved [TaskContext]: [&mut tcbs[i].cx], or the throwaway
    [unused] context of [run_first_task]. *)
Inductive CxPtr : Type :=
| CxOf (i : nat)
| CxUnused.

(** [struct TaskManager]; [tcbs] holds the [status] of each
    [TaskControlBlock] (its [cx] is addressed by [CxOf]). *)
Record TaskManager : Type := mkTaskManager {
  app_starts : list N;
  num_app : nat;
  current_task : nat;
  tcbs : list TaskStatus;
  stats : list TaskStat
}.

Definition set_tcbs (m : TaskManager) (t : list TaskStatus) : TaskManager :=
  mkTaskManager (app_starts m) (num_app m) (current_task m) t (stats m).
Definition set_stats (m : TaskManager) (s : list TaskStat) : TaskManager :=
  mkTaskManager (app_starts m) (num_app m) (current_task m) (tcbs m) s.

(** [TaskManager::load_task]: reads [app_starts[task_id]] and
    [app_starts[task_id + 1]], copies the image, sets the slot [Ready]. *)
Definition load_task (m : TaskManager) (task_id : nat) : Outcome TaskManager :=
  _ <-- index (app_starts m) task_id ;;
  _ <-- index (app_starts m) (task_id + 1) ;;
  _ <-- index (tcbs m) task_id ;;
  Ret (set_tcbs m (<[task_id := Ready]> (tcbs m))).

Fixpoint load_tasks (m : TaskManager) (ids : list nat) : Outcome TaskManager :=
  match ids with
  | [] => Ret m
  | i :: ids' => m' <-- load_task m i ;; load_tasks m' ids'
  end.

(** [TaskManager::new]: [app_starts] is the slice of [num_app + 1] entries
    that follows [_num_app] in the linked image table. *)
Definition TaskManager_new (MAX_SYSCALL_NUM num_app : nat) (app_starts : list N)
  : Outcome TaskManager :=
  load_tasks
    (mkTaskManager app_starts num_app 0 (replicate MAX_TASK_NUM UnInit)
       (replicate MAX_TASK_NUM (TaskStat_default MAX_SYSCALL_NUM)))
    (seq 0 num_app).

(** [TaskManager::move_to_next_task]; [t_end] and [t_begin] are the clock
    reads of [record_schedule_end] and [record_schedule_begin]. *)
Definition move_to_next_task (m : TaskManager) (next_task : nat) (t_end t_begin : N)
  : Outcome (TaskManager * (CxPtr * CxPtr)) :=
  let cur := current_task m in
  cur_status <-- index (tcbs m) cur ;;
  let tcbs1 := if decide (cur_status = Running) then <[cur := Ready]> (tcbs m) else tcbs m in
  cur_stat <-- index (stats m) cur ;;
  cur_stat' <-- record_schedule_end t_end cur_stat ;;
  let stats1 := <[cur := cur_stat']> (stats m) in
  next_status <-- index tcbs1 next_task ;;
  if decide (next_status = Ready) then
    let tcbs2 := <[next_task := Running]> tcbs1 in
    next_stat <-- index stats1 next_task ;;
    let stats2 := <[next_task := record_schedule_begin t_begin next_stat]> stats1 in
    Ret (mkTaskManager (app_starts m) (num_app m) next_task tcbs2 stats2,
         (CxOf cur, CxOf next_task))
  else Panic "assertion failed: next_tcb.status == TaskStatus::Ready".

(** The [for _ in 0..self.num_app] loop of [find_next_task]: [Some idx]
    is the early [return Some(idx)], [None] falls out of the loop. *)
Fixpoint scan_ready (ts : list TaskStatus) (n fuel idx : nat) : Outcome (option nat) :=
  match fuel with
  | 0 => Ret None
  | S fuel' =>
      s <-- index ts idx ;;
      if decide (s = Ready) then Ret (Some idx)
      else idx' <-- rem_usize (idx + 1) n ;; scan_ready ts n fuel' idx'
  end.

(** [TaskManager::find_next_task]. *)
Definition find_next_task (m : TaskManager) : Outcome (option nat) :=
  idx <-- rem_usize (current_task m + 1) (num_app m) ;;
  r <-- scan_ready (tcbs m) (num_app m) (num_app m) idx ;;
  match r with
  | Some j => Ret (Some j)
  | None =>
      s <-- index (tcbs m) (current_task m) ;;
      if decide (s = Running) then Ret (Some (current_task m)) else Ret None
  end.

(** [TaskManager::find_next_task_or_exit]. *)
Definition find_next_task_or_exit (m : TaskManager) : Outcome nat :=
  r <-- find_next_task m ;;
  match r with
  | Some j => Ret j
  | None => finish
  end.

(** ** Kernel-level entry points *)

(** Platform effects that the entry points perform after releasing the
    lock: programming the timer, and the one-way [__switch]. *)
Inductive Event : Type :=
| SetTimer (deadline : N)
| Switch (current_cx next_cx : CxPtr).

(** [set_next_trigger]: [sbi::set_timer(current_time + delta)] with
    [delta = CLOCK_FREQ / TICKS_PER_SEC]; [CLOCK_FREQ] comes from the time
    module and is a parameter, [now] is the clock read. *)
Definition TICKS_PER_SEC : N := 100.
Definition set_next_trigger (CLOCK_FREQ now : N) : Event :=
  SetTimer (usize_wrap (now + CLOCK_FREQ / TICKS_PER_SEC)).

(** [run_first_task]: the [__switch] out of the throwaway context never
    comes back, so the trace ends with it. *)
Definition run_first_task (CLOCK_FREQ : N) (m : TaskManager) (t_end t_begin t_now : N)
  : Outcome (TaskManager * list Event) :=
  first_task <-- (if decide (0 < num_app m) then Ret 0 else finish) ;;
  r <-- move_to_next_task m first_task t_end t_begin ;;
  let '(m', (_, first_task_cx)) := r in
  Ret (m', [set_next_trigger CLOCK_FREQ t_now; Switch CxUnused first_task_cx]).

(** [run_next_task]. *)
Definition run_next_task (CLOCK_FREQ : N) (m : TaskManager) (t_end t_begin t_now : N)
  : Outcome (TaskManager * list Event) :=
  next_task <-- find_next_task_or_exit m ;;
  r <-- move_to_next_task m next_task t_end t_begin ;;
  let '(m', (current_task_cx, next_task_cx)) := r in
  Ret (m', [set_next_trigger CLOCK_FREQ t_now; Switch current_task_cx next_task_cx]).

(** [exit_and_run_next]: marks the current task [Exited], then
    [run_next_task]. *)
Definition exit_and_run_next (CLOCK_FREQ : N) (m : TaskManager) (t_end t_begin t_now : N)
  : Outcome (TaskManager * list Event) :=
  _ <-- index (tcbs m) (current_task m) ;;
  run_next_task CLOCK_FREQ (set_tcbs m (<[current_task m := Exited]> (tcbs m)))
    t_end t_begin t_now.

(** Free function [record_syscall]: counts [syscall] for the current task. *)
Definition record_syscall (m : TaskManager) (syscall : nat) : Outcome TaskManager :=
  st <-- index (stats m) (current_task m) ;;
  st' <-- stat_record_syscall syscall st ;;
  Ret (set_stats m (<[current_task m := st']> (stats m))).

(** Transitions of the manager through its public operations (the clock
    reads and arguments are arbitrary; a panic or a power-off leaves no
    successor state). *)
Inductive step (CLOCK_FREQ : N) : TaskManager -> TaskManager -> Prop :=
| step_load m i m' :
    load_task m i = Ret m' -> step CLOCK_FREQ m m'
| step_move m next t1 t2 m' cxs :
    move_to_next_task m next t1 t2 = Ret (m', cxs) -> step CLOCK_FREQ m m'
| step_record_syscall m sc m' :
    record_syscall m sc = Ret m' -> step CLOCK_FREQ m m'
| step_run_first m t1 t2 t3 m' evs :
    run_first_task CLOCK_FREQ m t1 t2 t3 = Ret (m', evs) -> step CLOCK_FREQ m m'
| step_run_next m t1 t2 t3 m' evs :
    run_next_task CLOCK_FREQ m t1 t2 t3 = Ret (m', evs) -> step CLOCK_FREQ m m'
| step_exit m t1 t2 t3 m' evs :
    exit_and_run_next CLOCK_FREQ m t1 t2 t3 = Ret (m', evs) -> step CLOCK_FREQ m m'.

(** States reachable from a successful [TaskManager::new]. *)
Inductive reachable (MAX_SYSCALL_NUM : nat) (CLOCK_FREQ : N) : TaskManager -> Prop :=
| reach_boot n starts m :
    TaskManager_new MAX_SYSCALL_NUM n starts = Ret m ->
    reachable MAX_SYSCALL_NUM CLOCK_FREQ m
| reach_step m m' :
    reachable MAX_SYSCALL_NUM CLOCK_FREQ m -> step CLOCK_FREQ m m' ->
    reachable MAX_SYSCALL_NUM CLOCK_FREQ m'.

(** Well-formed manager: the invariants every reachable state has. *)
Definition wf (m : TaskManager) : Prop :=
  length (tcbs m) = MAX_TASK_NUM /\ length (stats m) = MAX_TASK_NUM /\
  num_app m <= MAX_TASK_NUM /\ current_task m < MAX_TASK_NUM.

(** ** Sanity checks on small inputs *)

Definition boot3 : Outcome TaskManager := TaskManager_new 5 3 [0; 10; 20; 30]%N.

Definition get_ret {A} (d : A) (o : Outcome A) : A :=
  match o with Ret a => a | _ => d end.

Definition mgr0 : TaskManager := mkTaskManager [] 0 0 [] [].

Definition set_current (m : TaskManager) (c : nat) : TaskManager :=
  mkTaskManager (app_starts m) (num_app m) c (tcbs m) (stats m).

(** Scenario of the spec: 3 Ready tasks, current = 0. *)
Example find_next_boot3 :
  find_next_task (get_ret mgr0 boot3) = Ret (Some 1).
Proof. vm_compute. reflexivity. Qed.

Example find_next_boot3_wrap :
  find_next_task (set_current (get_ret mgr0 boot3) 2) = Ret (Some 0).
Proof. vm_compute. reflexivity. Qed.

(** ** Basic facts about the embedding *)

Lemma index_some {A} (l : list A) i x : l !! i = Some x -> index l i = Ret x.
Proof. unfold index. intros ->. reflexivity. Qed.

Lemma index_ret {A} (l : list A) i x : index l i = Ret x -> l !! i = Some x.
Proof. unfold index. destruct (l !! i); congruence. Qed.

Lemma lookup_lt_is_Some' {A} (l : list A) i : i < length l -> exists x, l !! i = Some x.
Proof. intros H. apply lookup_lt_is_Some_2 in H. destruct H as [x Hx]. eauto. Qed.

Lemma rem_usize_pos a n : n <> 0 -> rem_usize a n = Ret (a mod n).
Proof. intros Hn. unfold rem_usize. destruct (decide (n = 0)); [lia | reflexivity]. Qed.

Lemma mod_succ_idemp b n : n <> 0 -> (b mod n + 1) mod n = (b + 1) mod n.
Proof. intros _. apply Nat.Div0.add_mod_idemp_l. Qed.

Section Scan.
Variable ts : list TaskStatus.
Variable n : nat.
Hypothesis Hn : 0 < n.
Hypothesis Hlen : n <= length ts.

Lemma scan_lookup_mod b : exists s, ts !! (b mod n) = Some s.
Proof. apply lookup_lt_is_Some'. pose proof (Nat.mod_upper_bound b n). lia. Qed.

(** The loop returns the first Ready slot of the cyclic order. *)
Lemma scan_ready_found f : forall b k,
  k < f -> ts !! ((b + k) mod n) = Some Ready ->
  (forall k', k' < k -> ts !! ((b + k') mod n) <> Some Ready) ->
  scan_ready ts n f (b mod n) = Ret (Some ((b + k) mod n)).
Proof.
  induction f as [|f IH]; intros b k Hk Hready Hfirst; [lia|].
  simpl. destruct (scan_lookup_mod b) as [s Hs].
  rewrite (index_some _ _ _ Hs). simpl.
  destruct (decide (s = Ready)) as [->|Hne].
  - destruct k as [|k].
    + rewrite Nat.add_0_r. reflexivity.
    + exfalso. apply (Hfirst 0); [lia|]. rewrite Nat.add_0_r. exact Hs.
  - destruct k as [|k].
    + rewrite Nat.add_0_r in Hready. congruence.
    + rewrite rem_usize_pos by lia. simpl.
      rewrite mod_succ_idemp by lia.
      replace (b + S k) with (b + 1 + k) by lia.
      apply IH; [lia| replace (b + 1 + k) with (b + S k) by lia; exact Hready |].
      intros k' Hk'. replace (b + 1 + k') with (b + S k') by lia.
      apply Hfirst. lia.
Qed.

(** With no Ready slot on the way, the loop runs to its end. *)
Lemma scan_ready_none f : forall b,
  (forall k, k < f -> ts !! ((b + k) mod n) <> Some Ready) ->
  scan_ready ts n f (b mod n) = Ret None.
Proof.
  induction f as [|f IH]; intros b Hnone; [reflexivity|].
  simpl. destruct (scan_lookup_mod b) as [s Hs].
  rewrite (index_some _ _ _ Hs). simpl.
  destruct (decide (s = Ready)) as [->|Hne].
  - exfalso. apply (Hnone 0); [lia|]. rewrite Nat.add_0_r. exact Hs.
  - rewrite rem_usize_pos by lia. simpl.
    rewrite mod_succ_idemp by lia. apply IH.
    intros k Hk. replace (b + 1 + k) with (b + S k) by lia. apply Hnone. lia.
Qed.
End Scan.

Lemma find_next_task_found_first (m : TaskManager) k :
  wf m -> 0 < num_app m -> k < num_app m ->
  tcbs m !! ((current_task m + 1 + k) mod num_app m) = Some Ready ->
  (forall k', k' < k ->
     tcbs m !! ((current_task m + 1 + k') mod num_app m) <> Some Ready) ->
  find_next_task m = Ret (Some ((current_task m + 1 + k) mod num_app m)).
Proof.
  intros (Hl & _ & Hn & _) Hpos Hk Hr Hf. unfold find_next_task.
  rewrite rem_usize_pos by lia. simpl.
  rewrite (scan_ready_found (tcbs m) (num_app m)) with (k := k); auto; lia.
Qed.

Lemma find_next_task_no_ready (m : TaskManager) :
  wf m -> 0 < num_app m ->
  (forall k, k < num_app m ->
     tcbs m !! ((current_task m + 1 + k) mod num_app m) <> Some Ready) ->
  find_next_task m =
    Ret (if decide (tcbs m !! current_task m = Some Running)
         then Some (current_task m) else None).
Proof.
  intros (Hl & _ & Hn & Hc) Hpos Hnone. unfold find_next_task.
  rewrite rem_usize_pos by lia. simpl.
  rewrite scan_ready_none; auto; [|lia]. simpl.
  destruct (lookup_lt_is_Some' (tcbs m) (current_task m)) as [s Hs]; [lia|].
  rewrite (index_some _ _ _ Hs). simpl. rewrite Hs.
  destruct s; reflexivity.
Qed.

(** Concrete managers used by the witnesses below. *)
Definition mgr3 : TaskManager := get_ret mgr0 boot3.
Definition mgr_empty : TaskManager := get_ret mgr0 (TaskManager_new 5 0 [0%N]).

Lemma mgr3_wf : wf mgr3.
Proof. unfold wf. vm_compute. lia. Qed.

Lemma mgr_empty_eq :
  mgr_empty = mkTaskManager [0%N] 0 0 (replicate MAX_TASK_NUM UnInit)
                (replicate MAX_TASK_NUM (TaskStat_default 5)).
Proof. reflexivity. Qed.

(** ** C1: round-robin choice of [find_next_task] *)

(** C1. For a manager with [num_app > 0], [find_next_task] returns the
    first Ready slot of the cyclic order [(current_task + 1 + k) mod
    num_app], [k < num_app]; when that order has no Ready slot it returns
    [Some current_task] exactly when the current task is Running, and
    [None] otherwise. *)
Theorem find_next_task_round_robin (m : TaskManager) :
  wf m -> 0 < num_app m ->
  (forall k, k < num_app m ->
     tcbs m !! ((current_task m + 1 + k) mod num_app m) = Some Ready ->
     (forall k', k' < k ->
        tcbs m !! ((current_task m + 1 + k') mod num_app m) <> Some Ready) ->
     find_next_task m = Ret (Some ((current_task m + 1 + k) mod num_app m))) /\
  ((forall k, k < num_app m ->
      tcbs m !! ((current_task m + 1 + k) mod num_app m) <> Some Ready) ->
   find_next_task m =
     Ret (if decide (tcbs m !! current_task m = Some Running)
          then Some (current_task m) else None)).
Proof.
  intros Hwf Hpos. split.
  - intros k Hk Hr Hf. apply find_next_task_found_first; assumption.
  - intros Hnone. apply find_next_task_no_ready; assumption.
Qed.

Lemma find_next_task_round_robin_witness :
  (wf mgr3 /\ 0 < num_app mgr3) /\
  find_next_task mgr3 = Ret (Some ((current_task mgr3 + 1 + 0) mod num_app mgr3)).
Proof.
  split; [split; [exact mgr3_wf | vm_compute; lia] |].
  apply (proj1 (find_next_task_round_robin mgr3 mgr3_wf ltac:(vm_compute; lia)));
    [vm_compute; lia | vm_compute; reflexivity | intros k' Hk'; lia].
Defined.

(** ** C10: [find_next_task] with no application *)

(** C10. With [num_app = 0], [find_next_task] computes
    [(current_task + 1) % 0] and panics (remainder by zero) instead of
    returning [None]. *)
Theorem find_next_task_no_apps_panics (m : TaskManager) :
  num_app m = 0 ->
  find_next_task m = Panic "attempt to calculate the remainder with a divisor of zero".
Proof. intros H. unfold find_next_task, rem_usize. rewrite H. reflexivity. Qed.

Lemma find_next_task_no_apps_panics_witness :
  num_app mgr_empty = 0 /\
  find_next_task mgr_empty = Panic "attempt to calculate the remainder with a divisor of zero".
Proof.
  split; [reflexivity|]. apply find_next_task_no_apps_panics. reflexivity.
Defined.

(** ** C5: exhaustion leads to power-off *)

(** C5 (as stated, refuted). The manager booted with no application has
    no Ready slot and its current task is not Running, yet
    [find_next_task] panics rather than returning [None]. *)
Lemma exhaustion_no_apps_counterexample :
  (Ready ∉ tcbs mgr_empty) /\ tcbs mgr_empty !! current_task mgr_empty <> Some Running /\
  find_next_task mgr_empty <> Ret None /\ find_next_task_or_exit mgr_empty <> finish.
Proof.
  rewrite mgr_empty_eq. cbn [tcbs current_task].
  split; [rewrite elem_of_replicate; intros [? _]; discriminate|].
  split; [rewrite lookup_replicate_2 by (unfold MAX_TASK_NUM; lia); discriminate|].
  split; vm_compute; discriminate.
Qed.

(** C5 (amended). When [num_app > 0], no task slot is Ready and the current
    task is not Running, [find_next_task] returns [None] and
    [find_next_task_or_exit] prints the completion message and powers off. *)
Theorem exhaustion_shutdown (m : TaskManager) :
  wf m -> 0 < num_app m -> (Ready ∉ tcbs m) ->
  tcbs m !! current_task m <> Some Running ->
  find_next_task m = Ret None /\
  find_next_task_or_exit m = Shutdown ["[kernel] All apps have completed."].
Proof.
  intros Hwf Hpos Hnr Hnrun.
  assert (Hf : find_next_task m = Ret None).
  { rewrite find_next_task_no_ready by
      (auto; intros k _ Hk; apply Hnr; eapply list_elem_of_lookup_2; exact Hk).
    destruct (decide _); [contradiction | reflexivity]. }
  split; [exact Hf|]. unfold find_next_task_or_exit. rewrite Hf. reflexivity.
Qed.

Definition mgr3_all_exited : TaskManager :=
  set_current (set_tcbs mgr3 ([Exited; Exited; Exited] ++ replicate 29 UnInit)) 2.

Lemma exhaustion_shutdown_witness :
  (wf mgr3_all_exited /\ 0 < num_app mgr3_all_exited /\ (Ready ∉ tcbs mgr3_all_exited) /\
   tcbs mgr3_all_exited !! current_task mgr3_all_exited <> Some Running) /\
  find_next_task_or_exit mgr3_all_exited = Shutdown ["[kernel] All apps have completed."].
Proof.
  assert (Hwf : wf mgr3_all_exited) by (unfold wf; vm_compute; lia).
  assert (Hpos : 0 < num_app mgr3_all_exited) by (vm_compute; lia).
  assert (Hnr : Ready ∉ tcbs mgr3_all_exited)
    by (apply (bool_decide_unpack (Ready ∉ tcbs mgr3_all_exited)); vm_compute; exact I).
  assert (Hrun : tcbs mgr3_all_exited !! current_task mgr3_all_exited <> Some Running)
    by (vm_compute; discriminate).
  split; [auto|].
  exact (proj2 (exhaustion_shutdown mgr3_all_exited Hwf Hpos Hnr Hrun)).
Defined.

(** ** Inversion of the monadic steps *)

Ltac ret_inv H :=
  repeat match type of H with
  | obind ?c _ = Ret _ =>
      let E := fresh "E" in destruct c eqn:E; cbn [obind] in H; try discriminate H
  | (if decide ?P then _ else _) = Ret _ =>
      let D := fresh "D" in destruct (decide P) as [D|D]; try discriminate H
  end.

Lemma record_schedule_end_ok (s : TaskStat) t :
  (forall last, last_scheduled s = Some last -> (last <= t)%N) ->
  exists s', record_schedule_end t s = Ret s'.
Proof.
  intros Hc. unfold record_schedule_end. destruct (last_scheduled s) as [l|] eqn:El; eauto.
  destruct (decide (t < l)%N) as [Hlt|]; eauto. specialize (Hc l eq_refl). lia.
Qed.

Lemma move_to_next_task_inv (m : TaskManager) next t1 t2 m' cxs :
  move_to_next_task m next t1 t2 = Ret (m', cxs) ->
  exists sc s_cur ended,
    tcbs m !! current_task m = Some sc /\
    stats m !! current_task m = Some s_cur /\
    record_schedule_end t1 s_cur = Ret ended /\
    (if decide (sc = Running) then <[current_task m := Ready]> (tcbs m) else tcbs m)
      !! next = Some Ready /\
    tcbs m' = <[next := Running]>
      (if decide (sc = Running) then <[current_task m := Ready]> (tcbs m) else tcbs m) /\
    (exists s_next, <[current_task m := ended]> (stats m) !! next = Some s_next /\
       stats m' = <[next := record_schedule_begin t2 s_next]>
                    (<[current_task m := ended]> (stats m))) /\
    current_task m' = next /\ num_app m' = num_app m /\ app_starts m' = app_starts m /\
    cxs = (CxOf (current_task m), CxOf next).
Proof.
  intros H. unfold move_to_next_task in H. cbv zeta in H. ret_inv H.
  injection H as <- <-.
  exists a, a0, a1. apply index_ret in E, E0, E2, E3.
  repeat split; auto. rewrite D in E2. exact E2. eauto.
Qed.

Lemma move_to_next_task_spec (m : TaskManager) next t_end t_begin s_cur :
  wf m -> tcbs m !! next = Some Ready ->
  stats m !! current_task m = Some s_cur ->
  (forall last, last_scheduled s_cur = Some last -> (last <= t_end)%N) ->
  exists ended m',
    record_schedule_end t_end s_cur = Ret ended /\
    move_to_next_task m next t_end t_begin = Ret (m', (CxOf (current_task m), CxOf next)) /\
    current_task m' = next /\ num_app m' = num_app m /\ app_starts m' = app_starts m /\
    (forall i, tcbs m' !! i =
       if decide (i = next) then Some Running
       else if decide (i = current_task m) then
         (if decide (tcbs m !! i = Some Running) then Some Ready else tcbs m !! i)
       else tcbs m !! i) /\
    (forall i, stats m' !! i =
       let ended_i := if decide (i = current_task m) then Some ended else stats m !! i in
       if decide (i = next) then record_schedule_begin t_begin <$> ended_i else ended_i).
Proof.
  intros (Hlt & Hls & Hn & Hc) Hnext Hscur Hclock.
  destruct (record_schedule_end_ok s_cur t_end Hclock) as [ended Hend].
  set (cur := current_task m) in *.
  destruct (lookup_lt_is_Some' (tcbs m) cur) as [sc Hsc]; [lia|].
  assert (Hnlt : next < length (tcbs m)) by (apply lookup_lt_Some in Hnext; exact Hnext).
  set (tcbs1 := if decide (sc = Running) then <[cur := Ready]> (tcbs m) else tcbs m).
  assert (H1 : tcbs1 !! next = Some Ready).
  { unfold tcbs1. destruct (decide (sc = Running)) as [->|]; [|exact Hnext].
    destruct (decide (cur = next)) as [<-|Hne]; [congruence|].
    rewrite list_lookup_insert_ne; auto. }
  set (stats1 := <[cur := ended]> (stats m)).
  destruct (lookup_lt_is_Some' stats1 next) as [sn Hsn].
  { unfold stats1. rewrite length_insert. lia. }
  exists ended.
  eexists. split; [exact Hend|]. split.
  { unfold move_to_next_task. fold cur.
    rewrite (index_some _ _ _ Hsc). cbn [obind].
    rewrite (index_some _ _ _ Hscur). cbn [obind]. rewrite Hend. cbn [obind].
    fold tcbs1. rewrite (index_some _ _ _ H1). cbn [obind].
    destruct (decide (Ready = Ready)); [|congruence].
    fold stats1. rewrite (index_some _ _ _ Hsn). cbn [obind]. reflexivity. }
  cbn [current_task num_app app_starts tcbs stats].
  split; [reflexivity|]. split; [reflexivity|]. split; [reflexivity|]. split.
  - intros i. destruct (decide (i = next)) as [->|Hin].
    + apply list_lookup_insert_eq. unfold tcbs1. destruct (decide _);
        rewrite ?length_insert; lia.
    + rewrite list_lookup_insert_ne by congruence. unfold tcbs1.
      destruct (decide (i = cur)) as [->|Hic].
      * rewrite Hsc. destruct (decide (sc = Running)) as [->|Hr].
        -- rewrite list_lookup_insert_eq by lia.
           destruct (decide _); congruence.
        -- destruct (decide (Some sc = Some Running)); congruence.
      * destruct (decide (sc = Running)); [rewrite list_lookup_insert_ne by congruence|];
          reflexivity.
  - intros i. cbv zeta. destruct (decide (i = next)) as [->|Hin].
    + rewrite list_lookup_insert_eq by (unfold stats1; rewrite length_insert; lia).
      unfold stats1 in Hsn.
      destruct (decide (next = cur)) as [->|Hnc].
      * rewrite list_lookup_insert_eq in Hsn by lia. injection Hsn as ->. reflexivity.
      * rewrite list_lookup_insert_ne in Hsn by congruence. rewrite Hsn. reflexivity.
    + rewrite list_lookup_insert_ne by congruence. unfold stats1.
      destruct (decide (i = cur)) as [->|Hic].
      * apply list_lookup_insert_eq. lia.
      * rewrite list_lookup_insert_ne by congruence. reflexivity.
Qed.

(** ** C2: effect of [move_to_next_task] *)

(** C2. If [next_task] is Ready (and the clock has not gone back since the
    current task's window opened), [move_to_next_task] succeeds: it ends the
    current task's stats window, demotes the current task to Ready only if
    it was Running (any other status is kept), marks [next_task] Running,
    begins [next_task]'s stats window, makes [next_task] current and returns
    the locations of both saved contexts. *)
Theorem move_to_next_task_effect (m : TaskManager) next t_end t_begin s_cur :
  wf m -> tcbs m !! next = Some Ready ->
  stats m !! current_task m = Some s_cur ->
  (forall last, last_scheduled s_cur = Some last -> (last <= t_end)%N) ->
  exists ended m',
    record_schedule_end t_end s_cur = Ret ended /\
    move_to_next_task m next t_end t_begin = Ret (m', (CxOf (current_task m), CxOf next)) /\
    current_task m' = next /\ num_app m' = num_app m /\ app_starts m' = app_starts m /\
    (forall i, tcbs m' !! i =
       if decide (i = next) then Some Running
       else if decide (i = current_task m) then
         (if decide (tcbs m !! i = Some Running) then Some Ready else tcbs m !! i)
       else tcbs m !! i) /\
    (forall i, stats m' !! i =
       let ended_i := if decide (i = current_task m) then Some ended else stats m !! i in
       if decide (i = next) then record_schedule_begin t_begin <$> ended_i else ended_i).
Proof. apply move_to_next_task_spec. Qed.

Lemma move_to_next_task_effect_witness :
  (wf mgr3 /\ tcbs mgr3 !! 1 = Some Ready /\
   stats mgr3 !! current_task mgr3 = Some (TaskStat_default 5) /\
   (forall last, last_scheduled (TaskStat_default 5) = Some last -> (last <= 7)%N)) /\
  exists ended m',
    record_schedule_end 7 (TaskStat_default 5) = Ret ended /\
    move_to_next_task mgr3 1 7 8 = Ret (m', (CxOf (current_task mgr3), CxOf 1)) /\
    current_task m' = 1.
Proof.
  assert (Hr : tcbs mgr3 !! 1 = Some Ready) by reflexivity.
  assert (Hs : stats mgr3 !! current_task mgr3 = Some (TaskStat_default 5)) by reflexivity.
  assert (Hc : forall last, last_scheduled (TaskStat_default 5) = Some last -> (last <= 7)%N)
    by (intros last Hl; discriminate Hl).
  split; [split; [exact mgr3_wf | split; [exact Hr | split; [exact Hs | exact Hc]]]|].
  destruct (move_to_next_task_effect mgr3 1 7 8 (TaskStat_default 5) mgr3_wf Hr Hs Hc)
    as (ended & m' & He & Hm & Hcur & _).
  exists ended, m'. split; [exact He|]. split; [exact Hm | exact Hcur].
Defined.

(** ** Helpers on the status array *)

Lemma move_to_next_task_no_shutdown (m : TaskManager) next t1 t2 :
  (exists r, move_to_next_task m next t1 t2 = Ret r) \/
  (exists msg, move_to_next_task m next t1 t2 = Panic msg).
Proof.
  unfold move_to_next_task, index, record_schedule_end. cbv zeta.
  repeat (progress cbn [obind] || case_match); eauto.
Qed.

(** A successful switch targets a slot that is Ready once the current task
    has been demoted. *)
Lemma move_to_next_task_target (m : TaskManager) next t1 t2 r :
  move_to_next_task m next t1 t2 = Ret r ->
  tcbs m !! next = Some Ready \/
  (next = current_task m /\ tcbs m !! next = Some Running).
Proof.
  destruct r as [m' cxs]. intros H.
  destruct (move_to_next_task_inv _ _ _ _ _ _ H)
    as (sc & s_cur & ended & Hsc & _ & _ & H1 & _).
  destruct (decide (sc = Running)) as [->|]; [|left; exact H1].
  destruct (decide (next = current_task m)) as [->|Hne]; [right; auto|].
  left. rewrite list_lookup_insert_ne in H1 by congruence. exact H1.
Qed.

Lemma move_to_next_task_status (m : TaskManager) next t1 t2 m' cxs i s :
  move_to_next_task m next t1 t2 = Ret (m', cxs) ->
  tcbs m !! i = Some s -> s <> Ready -> s <> Running ->
  tcbs m' !! i = Some s.
Proof.
  intros H Hi Hr Hrun.
  destruct (move_to_next_task_inv _ _ _ _ _ _ H)
    as (sc & s_cur & ended & Hsc & _ & _ & H1 & Ht & _).
  assert (H1i : (if decide (sc = Running) then <[current_task m := Ready]> (tcbs m)
                 else tcbs m) !! i = Some s).
  { destruct (decide (sc = Running)) as [->|]; [|exact Hi].
    destruct (decide (i = current_task m)) as [->|Hne]; [congruence|].
    rewrite list_lookup_insert_ne by congruence. exact Hi. }
  rewrite Ht. destruct (decide (i = next)) as [->|Hne]; [congruence|].
  rewrite list_lookup_insert_ne by congruence. exact H1i.
Qed.

(** ** C6: scheduling invariant violations abort *)

(** The manager after [run_first_task] from [mgr3]: task 0 is Running and
    current. *)
Definition mgr3_running0 : TaskManager :=
  get_ret mgr0 (obind (move_to_next_task mgr3 0 0 0) (fun r => Ret (fst r))).

(** C6 (as stated, refuted). Task 0 is Running, hence not Ready, yet
    [move_to_next_task 0] does not abort: the current task is demoted to
    Ready before the assertion, which then passes. *)
Lemma switch_to_running_current_counterexample :
  tcbs mgr3_running0 !! 0 = Some Running /\ current_task mgr3_running0 = 0 /\
  exists r, move_to_next_task mgr3_running0 0 1 1 = Ret r.
Proof.
  split; [reflexivity|]. split; [reflexivity|].
  eexists. vm_compute. reflexivity.
Qed.

(** C6 (amended). [move_to_next_task next] panics whenever [next] is not
    Ready and is not the Running current task (which is demoted to Ready
    before the assertion); [record_syscall] with a syscall number at or
    above [MAX_SYSCALL_NUM] panics on the bounds check. Neither returns
    normally. *)
Theorem scheduling_violations_abort (MAX_SYSCALL_NUM : nat) (m : TaskManager) next t1 t2 sc :
  (tcbs m !! next <> Some Ready ->
   ~ (next = current_task m /\ tcbs m !! next = Some Running) ->
   exists msg, move_to_next_task m next t1 t2 = Panic msg) /\
  (forall st, stats m !! current_task m = Some st ->
   length (syscall_times st) = MAX_SYSCALL_NUM -> MAX_SYSCALL_NUM <= sc ->
   record_syscall m sc = Panic "index out of bounds").
Proof.
  split.
  - intros Hnr Hnc.
    destruct (move_to_next_task_no_shutdown m next t1 t2) as [[r Hr]|Hp]; [|exact Hp].
    exfalso. destruct (move_to_next_task_target _ _ _ _ _ Hr); tauto.
  - intros st Hst Hlen Hsc. unfold record_syscall.
    rewrite (index_some _ _ _ Hst). cbn [obind]. unfold stat_record_syscall, index.
    rewrite lookup_ge_None_2 by lia. reflexivity.
Qed.

Lemma scheduling_violations_abort_witness :
  (exists msg, move_to_next_task mgr3 5 0 0 = Panic msg) /\
  record_syscall mgr3 7 = Panic "index out of bounds".
Proof.
  destruct (scheduling_violations_abort 5 mgr3 5 0 0 7) as [Hm Hs]. split.
  - apply Hm; [vm_compute; discriminate | vm_compute; intros [Hc _]; discriminate Hc].
  - apply (Hs (TaskStat_default 5)); [reflexivity | reflexivity | lia].
Defined.

(** ** Inversion of the entry points *)

Lemma scan_ready_some ts n f : forall idx j,
  scan_ready ts n f idx = Ret (Some j) -> ts !! j = Some Ready.
Proof.
  induction f as [|f IH]; intros idx j H; cbn in H; [discriminate|].
  ret_inv H.
  - injection H as <-. apply index_ret in E. subst. exact E.
  - unfold rem_usize in E0. destruct (decide (n = 0)); [discriminate|].
    injection E0 as <-. eapply IH; exact H.
Qed.

Lemma find_next_task_some (m : TaskManager) j :
  find_next_task m = Ret (Some j) ->
  tcbs m !! j = Some Ready \/ (j = current_task m /\ tcbs m !! j = Some Running).
Proof.
  unfold find_next_task. intros H. ret_inv H.
  destruct a0 as [j'|].
  - injection H as <-. left. eapply scan_ready_some; exact E0.
  - ret_inv H. injection H as <-. apply index_ret in E1. subst. right; auto.
Qed.

Lemma record_syscall_inv (m : TaskManager) sc m' :
  record_syscall m sc = Ret m' ->
  exists st st', stats m !! current_task m = Some st /\ stat_record_syscall sc st = Ret st' /\
    m' = set_stats m (<[current_task m := st']> (stats m)).
Proof.
  unfold record_syscall. intros H. ret_inv H. injection H as <-.
  apply index_ret in E. eauto.
Qed.

Lemma load_task_inv (m : TaskManager) i m' :
  load_task m i = Ret m' -> i < length (tcbs m) /\ m' = set_tcbs m (<[i := Ready]> (tcbs m)).
Proof.
  unfold load_task. intros H. ret_inv H. injection H as <-.
  apply index_ret, lookup_lt_Some in E1. auto.
Qed.

Lemma run_next_task_inv CLOCK_FREQ (m : TaskManager) t1 t2 t3 m' evs :
  run_next_task CLOCK_FREQ m t1 t2 t3 = Ret (m', evs) ->
  exists next cxs, find_next_task_or_exit m = Ret next /\
    move_to_next_task m next t1 t2 = Ret (m', cxs).
Proof.
  unfold run_next_task. intros H. ret_inv H.
  destruct a0 as [m'' [c1 c2]]. injection H as <- _. eauto.
Qed.

Lemma run_first_task_inv CLOCK_FREQ (m : TaskManager) t1 t2 t3 m' evs :
  run_first_task CLOCK_FREQ m t1 t2 t3 = Ret (m', evs) ->
  exists cxs, move_to_next_task m 0 t1 t2 = Ret (m', cxs).
Proof.
  unfold run_first_task. intros H. ret_inv H.
  destruct (decide (0 < num_app m)); [|discriminate E]. injection E as <-.
  destruct a0 as [m'' [c1 c2]]. injection H as <- _. eauto.
Qed.

Lemma exit_and_run_next_inv CLOCK_FREQ (m : TaskManager) t1 t2 t3 m' evs :
  exit_and_run_next CLOCK_FREQ m t1 t2 t3 = Ret (m', evs) ->
  current_task m < length (tcbs m) /\
  run_next_task CLOCK_FREQ (set_tcbs m (<[current_task m := Exited]> (tcbs m)))
    t1 t2 t3 = Ret (m', evs).
Proof.
  unfold exit_and_run_next. intros H. ret_inv H.
  apply index_ret, lookup_lt_Some in E. auto.
Qed.

Lemma move_keeps_exited (m : TaskManager) next t1 t2 m' cxs i :
  move_to_next_task m next t1 t2 = Ret (m', cxs) ->
  tcbs m !! i = Some Exited -> tcbs m' !! i = Some Exited.
Proof. intros H Hi. eapply move_to_next_task_status; eauto; discriminate. Qed.

Lemma run_next_keeps_exited CLOCK_FREQ (m : TaskManager) t1 t2 t3 m' evs i :
  run_next_task CLOCK_FREQ m t1 t2 t3 = Ret (m', evs) ->
  tcbs m !! i = Some Exited -> tcbs m' !! i = Some Exited.
Proof.
  intros H Hi. destruct (run_next_task_inv _ _ _ _ _ _ _ H) as (next & cxs & _ & Hm).
  eapply move_keeps_exited; eauto.
Qed.

(** ** C3: Exited is terminal *)

(** C3. Once slot [i] is Exited, [move_to_next_task], [record_syscall],
    [exit_and_run_next] and [run_next_task] leave it Exited whenever they
    return, and neither [find_next_task] nor [find_next_task_or_exit]
    selects it. *)
Theorem exited_is_terminal CLOCK_FREQ (m : TaskManager) i :
  tcbs m !! i = Some Exited ->
  (forall next t1 t2 m' cxs,
     move_to_next_task m next t1 t2 = Ret (m', cxs) -> tcbs m' !! i = Some Exited) /\
  (forall sc m', record_syscall m sc = Ret m' -> tcbs m' !! i = Some Exited) /\
  (forall t1 t2 t3 m' evs,
     exit_and_run_next CLOCK_FREQ m t1 t2 t3 = Ret (m', evs) -> tcbs m' !! i = Some Exited) /\
  (forall t1 t2 t3 m' evs,
     run_next_task CLOCK_FREQ m t1 t2 t3 = Ret (m', evs) -> tcbs m' !! i = Some Exited) /\
  find_next_task m <> Ret (Some i) /\ find_next_task_or_exit m <> Ret i.
Proof.
  intros Hi.
  assert (Hfind : find_next_task m <> Ret (Some i)).
  { intros Hf. destruct (find_next_task_some _ _ Hf) as [H|[_ H]]; congruence. }
  split; [intros; eapply move_keeps_exited; eauto|].
  split.
  { intros sc m' H. destruct (record_syscall_inv _ _ _ H) as (st & st' & _ & _ & ->).
    exact Hi. }
  split.
  { intros t1 t2 t3 m' evs H. destruct (exit_and_run_next_inv _ _ _ _ _ _ _ H) as [_ Hr].
    eapply run_next_keeps_exited; [exact Hr|]. cbn [tcbs set_tcbs].
    destruct (decide (i = current_task m)) as [->|Hne].
    - apply list_lookup_insert_eq. apply lookup_lt_Some in Hi. exact Hi.
    - rewrite list_lookup_insert_ne by congruence. exact Hi. }
  split; [intros; eapply run_next_keeps_exited; eauto|].
  split; [exact Hfind|].
  unfold find_next_task_or_exit. intros H. ret_inv H.
  destruct a as [j|]; [|discriminate H]. injection H as ->. contradiction.
Qed.

Definition mgr3_exited1 : TaskManager := set_tcbs mgr3 (<[1 := Exited]> (tcbs mgr3)).

Lemma exited_is_terminal_witness :
  tcbs mgr3_exited1 !! 1 = Some Exited /\
  find_next_task mgr3_exited1 <> Ret (Some 1).
Proof.
  assert (H : tcbs mgr3_exited1 !! 1 = Some Exited) by reflexivity.
  split; [exact H|].
  exact (proj1 (proj2 (proj2 (proj2 (proj2 (exited_is_terminal 0 mgr3_exited1 1 H)))))).
Defined.

(** ** C4: at most one Running task *)

(** Every Running slot is the current one. *)
Definition running_is_current (m : TaskManager) : Prop :=
  forall i, tcbs m !! i = Some Running -> i = current_task m.

Lemma move_running_is_current (m : TaskManager) next t1 t2 m' cxs :
  running_is_current m -> move_to_next_task m next t1 t2 = Ret (m', cxs) ->
  running_is_current m'.
Proof.
  intros Hinv H j Hj.
  destruct (move_to_next_task_inv _ _ _ _ _ _ H)
    as (sc & s_cur & ended & Hsc & _ & _ & H1 & Ht & _ & Hcur & _).
  rewrite Hcur. rewrite Ht in Hj.
  destruct (decide (j = next)) as [->|Hne]; [reflexivity|].
  exfalso. rewrite list_lookup_insert_ne in Hj by congruence.
  destruct (decide (sc = Running)) as [->|Hsr].
  - destruct (decide (j = current_task m)) as [->|Hjc].
    + rewrite list_lookup_insert_eq in Hj by (apply lookup_lt_Some in Hsc; exact Hsc).
      discriminate.
    + rewrite list_lookup_insert_ne in Hj by congruence. apply Hjc, Hinv, Hj.
  - pose proof (Hinv j Hj) as ->. congruence.
Qed.

Lemma load_task_running_is_current (m : TaskManager) i m' :
  running_is_current m -> load_task m i = Ret m' -> running_is_current m'.
Proof.
  intros Hinv H j Hj. destruct (load_task_inv _ _ _ H) as [Hlt ->].
  cbn [tcbs current_task set_tcbs] in *.
  destruct (decide (j = i)) as [->|Hne].
  - rewrite list_lookup_insert_eq in Hj by exact Hlt. discriminate.
  - rewrite list_lookup_insert_ne in Hj by congruence. apply Hinv, Hj.
Qed.

Lemma load_tasks_running_is_current ids : forall (m m' : TaskManager),
  running_is_current m -> load_tasks m ids = Ret m' -> running_is_current m'.
Proof.
  induction ids as [|i ids IH]; intros m m' Hinv H; cbn in H.
  - injection H as <-. exact Hinv.
  - ret_inv H. eapply IH; [|exact H]. eapply load_task_running_is_current; eauto.
Qed.

Lemma step_running_is_current CLOCK_FREQ (m m' : TaskManager) :
  running_is_current m -> step CLOCK_FREQ m m' -> running_is_current m'.
Proof.
  intros Hinv Hs. destruct Hs as [m i m' H|m next t1 t2 m' cxs H|m sc m' H
                                 |m t1 t2 t3 m' evs H|m t1 t2 t3 m' evs H|m t1 t2 t3 m' evs H].
  - eapply load_task_running_is_current; eauto.
  - eapply move_running_is_current; eauto.
  - destruct (record_syscall_inv _ _ _ H) as (st & st' & _ & _ & ->). exact Hinv.
  - destruct (run_first_task_inv _ _ _ _ _ _ _ H) as [cxs Hm].
    eapply move_running_is_current; eauto.
  - destruct (run_next_task_inv _ _ _ _ _ _ _ H) as (next & cxs & _ & Hm).
    eapply move_running_is_current; eauto.
  - destruct (exit_and_run_next_inv _ _ _ _ _ _ _ H) as [Hlt Hr].
    destruct (run_next_task_inv _ _ _ _ _ _ _ Hr) as (next & cxs & _ & Hm).
    eapply move_running_is_current; [|exact Hm].
    intros j Hj. cbn [tcbs current_task set_tcbs] in *.
    destruct (decide (j = current_task m)) as [->|Hne]; [reflexivity|].
    rewrite list_lookup_insert_ne in Hj by congruence. apply Hinv, Hj.
Qed.

Lemma reachable_running_is_current MAX_SYSCALL_NUM CLOCK_FREQ (m : TaskManager) :
  reachable MAX_SYSCALL_NUM CLOCK_FREQ m -> running_is_current m.
Proof.
  induction 1 as [n starts m Hboot|m m' _ IH Hs].
  - eapply load_tasks_running_is_current; [|exact Hboot].
    intros i Hi. cbn [tcbs] in Hi. apply lookup_replicate in Hi as [Hc _]. discriminate.
  - eapply step_running_is_current; eauto.
Qed.

(** C4. In every state reachable from [TaskManager::new] through the public
    operations at most one slot is Running, and a successful
    [move_to_next_task] from such a state (also with [next_task] equal to
    the current task) again leaves at most one slot Running. *)
Theorem at_most_one_running MAX_SYSCALL_NUM CLOCK_FREQ (m : TaskManager) :
  reachable MAX_SYSCALL_NUM CLOCK_FREQ m ->
  (forall i j, tcbs m !! i = Some Running -> tcbs m !! j = Some Running -> i = j) /\
  (forall next t1 t2 m' cxs, move_to_next_task m next t1 t2 = Ret (m', cxs) ->
     forall i j, tcbs m' !! i = Some Running -> tcbs m' !! j = Some Running -> i = j).
Proof.
  intros Hr. pose proof (reachable_running_is_current _ _ _ Hr) as Hinv. split.
  - intros i j Hi Hj. rewrite (Hinv i Hi), (Hinv j Hj). reflexivity.
  - intros next t1 t2 m' cxs Hm i j Hi Hj.
    pose proof (move_running_is_current _ _ _ _ _ _ Hinv Hm) as Hinv'.
    rewrite (Hinv' i Hi), (Hinv' j Hj). reflexivity.
Qed.

Lemma at_most_one_running_witness :
  reachable 5 0 mgr3 /\
  (forall i j, tcbs mgr3 !! i = Some Running -> tcbs mgr3 !! j = Some Running -> i = j).
Proof.
  assert (Hr : reachable 5 0 mgr3) by (apply (reach_boot 5 0 3 [0; 10; 20; 30]%N); reflexivity).
  split; [exact Hr|]. exact (proj1 (at_most_one_running 5 0 mgr3 Hr)).
Defined.

(** ** C7: statistics windows *)

(** Histories of one task's [TaskStat] under [record_schedule_begin] and
    [record_schedule_end], with a non-decreasing platform clock: [t] is the
    latest clock value read. *)
Inductive stat_reach (MAX_SYSCALL_NUM : nat) : N -> TaskStat -> Prop :=
| stat_reach_default : stat_reach MAX_SYSCALL_NUM 0 (TaskStat_default MAX_SYSCALL_NUM)
| stat_reach_begin t s t' :
    stat_reach MAX_SYSCALL_NUM t s -> (t <= t')%N ->
    stat_reach MAX_SYSCALL_NUM t' (record_schedule_begin t' s)
| stat_reach_end t s t' s' :
    stat_reach MAX_SYSCALL_NUM t s -> (t <= t')%N -> record_schedule_end t' s = Ret s' ->
    stat_reach MAX_SYSCALL_NUM t' s'.

Definition usize_max : N := (2 ^ 64 - 1)%N.

Lemma record_schedule_begin_cpu (s : TaskStat) t :
  cpu_clocks (record_schedule_begin t s) = cpu_clocks s.
Proof. unfold record_schedule_begin. destruct (last_scheduled s); reflexivity. Qed.

Lemma record_schedule_end_fields (s s' : TaskStat) t :
  record_schedule_end t s = Ret s' ->
  first_scheduled s' = first_scheduled s /\ last_scheduled s' = last_scheduled s.
Proof.
  unfold record_schedule_end. destruct (last_scheduled s) as [l|] eqn:El.
  - destruct (decide (t < l)%N); [discriminate|]. intros H. injection H as <-. auto.
  - intros H. injection H as <-. auto.
Qed.

Lemma stat_reach_window MAX_SYSCALL_NUM t (s : TaskStat) :
  stat_reach MAX_SYSCALL_NUM t s ->
  forall l, last_scheduled s = Some l ->
    (l <= t)%N /\ exists f, first_scheduled s = Some f /\ (f <= l)%N.
Proof.
  induction 1 as [|t s t' Hr IH Ht|t s t' s' Hr IH Ht He]; intros l Hl.
  - discriminate.
  - unfold record_schedule_begin in *. destruct (last_scheduled s) as [l0|] eqn:El0;
      cbn in Hl; injection Hl as <-.
    + destruct (IH l0 eq_refl) as (_ & f & Hf & Hfl). split; [lia|].
      exists f. split; [exact Hf|]. specialize (IH l0 eq_refl). lia.
    + split; [lia|]. exists t'. split; [reflexivity|lia].
  - destruct (record_schedule_end_fields _ _ _ He) as [Hf Hls].
    rewrite Hls in Hl. destruct (IH l Hl) as (Hlt & f & Hf' & Hfl).
    split; [lia|]. exists f. rewrite Hf. auto.
Qed.

Definition stat_after_begin0 : TaskStat := record_schedule_begin 0 (TaskStat_default 5).
Definition stat_after_end_max : TaskStat :=
  get_ret stat_after_begin0 (record_schedule_end usize_max stat_after_begin0).

(** C7 (as stated, refuted). Clock reads 0, [usize::MAX], [usize::MAX]:
    begin, end, end. The second [record_schedule_end] adds [usize::MAX] to
    [cpu_clocks = usize::MAX], which wraps, so [cpu_clocks] decreases. *)
Lemma cpu_clocks_wrap_counterexample :
  stat_reach 5 usize_max stat_after_end_max /\
  exists s', record_schedule_end usize_max stat_after_end_max = Ret s' /\
    (cpu_clocks s' < cpu_clocks stat_after_end_max)%N.
Proof.
  split.
  - eapply stat_reach_end with (t := 0%N) (s := stat_after_begin0);
      [| unfold usize_max; lia | reflexivity].
    apply stat_reach_begin with (t := 0%N); [constructor | lia].
  - eexists. split; [vm_compute; reflexivity|]. vm_compute. reflexivity.
Qed.

(** C7 (amended). With a non-decreasing clock: [record_schedule_begin]
    never changes [cpu_clocks]; [record_schedule_end] never decreases it as
    long as the sum [cpu_clocks + elapsed] fits in a [usize]; and once
    [first_scheduled] and [last_scheduled] are set, [first_scheduled <=
    last_scheduled]. *)
Theorem stats_monotone MAX_SYSCALL_NUM t (s : TaskStat) :
  stat_reach MAX_SYSCALL_NUM t s ->
  (forall f l, first_scheduled s = Some f -> last_scheduled s = Some l -> (f <= l)%N) /\
  (forall t', cpu_clocks (record_schedule_begin t' s) = cpu_clocks s) /\
  (forall t' s', (t <= t')%N -> record_schedule_end t' s = Ret s' ->
     (forall l, last_scheduled s = Some l -> (cpu_clocks s + (t' - l) <= usize_max)%N) ->
     (cpu_clocks s <= cpu_clocks s')%N).
Proof.
  intros Hr. split; [|split].
  - intros f l Hf Hl. destruct (stat_reach_window _ _ _ Hr l Hl) as (_ & f' & Hf' & Hle).
    congruence.
  - intros t'. apply record_schedule_begin_cpu.
  - intros t' s' Ht He Hfit. unfold record_schedule_end in He.
    destruct (last_scheduled s) as [l|] eqn:El.
    + destruct (decide (t' < l)%N); [discriminate|]. injection He as <-. cbn.
      specialize (Hfit l eq_refl). unfold usize_wrap, usize_max in *.
      rewrite N.mod_small by lia. lia.
    + injection He as <-. lia.
Qed.

Lemma stats_monotone_witness :
  stat_reach 5 3 (record_schedule_begin 3 (TaskStat_default 5)) /\
  (Some 3%N = Some 3%N -> Some 3%N = Some 3%N -> (3 <= 3)%N).
Proof.
  assert (Hr : stat_reach 5 3 (record_schedule_begin 3 (TaskStat_default 5)))
    by (apply stat_reach_begin with (t := 0%N); [constructor | lia]).
  split; [exact Hr|].
  exact (proj1 (stats_monotone 5 3 _ Hr) 3%N 3%N).
Defined.

(** ** C8: syscall counting *)

(** [k] successive calls of [record_syscall syscall] (the current task does
    not change in between). *)
Fixpoint record_syscall_times (m : TaskManager) (syscall k : nat) : Outcome TaskManager :=
  match k with
  | 0 => Ret m
  | S k' => m' <-- record_syscall m syscall ;; record_syscall_times m' syscall k'
  end.

Lemma record_syscall_times_spec (m : TaskManager) syscall k st c :
  stats m !! current_task m = Some st ->
  syscall_times st !! syscall = Some c -> (c < 2 ^ 32)%N ->
  exists m' st',
    record_syscall_times m syscall k = Ret m' /\
    current_task m' = current_task m /\ tcbs m' = tcbs m /\
    (forall j, j <> current_task m -> stats m' !! j = stats m !! j) /\
    stats m' !! current_task m = Some st' /\
    cpu_clocks st' = cpu_clocks st /\ first_scheduled st' = first_scheduled st /\
    last_scheduled st' = last_scheduled st /\
    (forall s, s <> syscall -> syscall_times st' !! s = syscall_times st !! s) /\
    syscall_times st' !! syscall = Some ((c + N.of_nat k) mod 2 ^ 32)%N.
Proof.
  revert m st c. induction k as [|k IH]; intros m st c Hst Hc Hlt.
  - exists m, st. cbn. repeat split; auto. rewrite Hc. f_equal.
    rewrite N.add_0_r. symmetry. apply N.mod_small. exact Hlt.
  - set (st1 := mkTaskStat (cpu_clocks st) (first_scheduled st) (last_scheduled st)
                   (<[syscall := u32_wrap (c + 1)]> (syscall_times st))).
    set (m1 := set_stats m (<[current_task m := st1]> (stats m))).
    assert (Hm1 : record_syscall m syscall = Ret m1).
    { unfold record_syscall. rewrite (index_some _ _ _ Hst). cbn [obind].
      unfold stat_record_syscall. rewrite (index_some _ _ _ Hc). reflexivity. }
    assert (Hlen : syscall < length (syscall_times st)) by (eapply lookup_lt_Some; eauto).
    assert (Hclen : current_task m < length (stats m)) by (eapply lookup_lt_Some; eauto).
    assert (Hst1 : stats m1 !! current_task m1 = Some st1)
      by (apply list_lookup_insert_eq; exact Hclen).
    assert (Hc1 : syscall_times st1 !! syscall = Some (u32_wrap (c + 1)))
      by (apply list_lookup_insert_eq; exact Hlen).
    assert (Hlt1 : (u32_wrap (c + 1) < 2 ^ 32)%N)
      by (unfold u32_wrap; apply N.mod_upper_bound; lia).
    destruct (IH m1 st1 _ Hst1 Hc1 Hlt1)
      as (m' & st' & Hrun & Hcur & Ht & Hoth & Hst' & Hcpu & Hf & Hl & Hso & Hs).
    exists m', st'. cbn [record_syscall_times]. rewrite Hm1. cbn [obind].
    split; [exact Hrun|]. split; [exact Hcur|]. split; [exact Ht|].
    split.
    { intros j Hj. rewrite Hoth by exact Hj. cbn [stats set_stats].
      apply list_lookup_insert_ne. congruence. }
    split; [exact Hst'|]. split; [exact Hcpu|]. split; [exact Hf|]. split; [exact Hl|].
    split.
    { intros s Hs'. rewrite Hso by exact Hs'. cbn [syscall_times].
      apply list_lookup_insert_ne. congruence. }
    rewrite Hs. f_equal. unfold u32_wrap.
    rewrite N.Div0.add_mod_idemp_l. f_equal. lia.
Qed.

(** C8 (as stated, refuted). The [u32] counter wraps: after [2^32] calls of
    [record_syscall 0] in [mgr3], the counter of syscall 0 reads 0, not
    [2^32]. *)
Lemma syscall_counter_wrap_counterexample :
  exists m' st',
    record_syscall_times mgr3 0 (2 ^ 32) = Ret m' /\
    stats m' !! current_task mgr3 = Some st' /\
    syscall_times st' !! 0 = Some 0%N /\ N.of_nat (2 ^ 32) <> 0%N.
Proof.
  destruct (record_syscall_times_spec mgr3 0 (2 ^ 32) (TaskStat_default 5) 0
              eq_refl eq_refl ltac:(lia))
    as (m' & st' & Hrun & _ & _ & _ & Hst' & _ & _ & _ & _ & Hs).
  exists m', st'. split; [exact Hrun|]. split; [exact Hst'|].
  rewrite Nat2N.inj_pow in Hs. split.
  - rewrite Hs. reflexivity.
  - rewrite Nat2N.inj_pow. discriminate.
Qed.

(** C8 (amended). For fewer than [2^32] calls: calling [record_syscall s]
    [k] times while a task is current, starting from its zero counter for
    [s] (with [s] in the tracked range), makes that counter read [k]; the
    task's other counters and time fields, the stats of every other task,
    the statuses and the current task are unchanged. *)
Theorem syscall_counting (m : TaskManager) syscall k st :
  stats m !! current_task m = Some st ->
  syscall_times st !! syscall = Some 0%N -> k < 2 ^ 32 ->
  exists m' st',
    record_syscall_times m syscall k = Ret m' /\
    current_task m' = current_task m /\ tcbs m' = tcbs m /\
    (forall j, j <> current_task m -> stats m' !! j = stats m !! j) /\
    stats m' !! current_task m = Some st' /\
    cpu_clocks st' = cpu_clocks st /\ first_scheduled st' = first_scheduled st /\
    last_scheduled st' = last_scheduled st /\
    (forall s, s <> syscall -> syscall_times st' !! s = syscall_times st !! s) /\
    syscall_times st' !! syscall = Some (N.of_nat k).
Proof.
  intros Hst Hc Hk.
  destruct (record_syscall_times_spec m syscall k st 0 Hst Hc ltac:(lia))
    as (m' & st' & Hrun & Hcur & Ht & Hoth & Hst' & Hcpu & Hf & Hl & Hso & Hs).
  exists m', st'. repeat split; auto.
  rewrite Hs. f_equal. rewrite N.add_0_l. apply N.mod_small.
  replace (2 ^ 32)%N with (N.of_nat (2 ^ 32)) by (rewrite Nat2N.inj_pow; reflexivity).
  unfold N.lt. rewrite <- Nat2N.inj_compare. apply Nat.compare_lt_iff. exact Hk.
Qed.

Lemma syscall_counting_witness :
  (stats mgr3 !! current_task mgr3 = Some (TaskStat_default 5) /\
   syscall_times (TaskStat_default 5) !! 2 = Some 0%N /\ 3 < 2 ^ 32) /\
  exists m' st', record_syscall_times mgr3 2 3 = Ret m' /\
    stats m' !! current_task mgr3 = Some st' /\ syscall_times st' !! 2 = Some 3%N.
Proof.
  assert (H1 : stats mgr3 !! current_task mgr3 = Some (TaskStat_default 5)) by reflexivity.
  assert (H2 : syscall_times (TaskStat_default 5) !! 2 = Some 0%N) by reflexivity.
  assert (H3 : 3 < 2 ^ 32).
  { apply (Nat.lt_le_trans _ (2 ^ 2)); [cbn; lia|]. apply Nat.pow_le_mono_r; lia. }
  split; [auto|].
  destruct (syscall_counting mgr3 2 3 _ H1 H2 H3)
    as (m' & st' & Hrun & _ & _ & _ & Hst' & _ & _ & _ & _ & Hs).
  exists m', st'. auto.
Defined.

(** ** C9: [run_first_task] *)

Lemma load_tasks_fields ids : forall (m m' : TaskManager),
  load_tasks m ids = Ret m' ->
  num_app m' = num_app m /\ current_task m' = current_task m /\ stats m' = stats m /\
  length (tcbs m') = length (tcbs m) /\
  (forall i, tcbs m !! i = Some Ready \/ i ∈ ids -> tcbs m' !! i = Some Ready).
Proof.
  induction ids as [|x ids IH]; intros m m' H; cbn in H.
  - injection H as <-. repeat split; auto.
    intros i [Hi|Hi]; [exact Hi | apply elem_of_nil in Hi; contradiction].
  - ret_inv H. destruct (load_task_inv _ _ _ E) as [Hlt ->].
    destruct (IH _ _ H) as (Hn & Hc & Hs & Hl & Hr). cbn [num_app current_task stats tcbs set_tcbs] in *.
    rewrite length_insert in Hl. repeat split; auto.
    intros i Hi. apply Hr. destruct (decide (i = x)) as [->|Hne].
    + left. apply list_lookup_insert_eq. exact Hlt.
    + rewrite list_lookup_insert_ne by congruence.
      destruct Hi as [Hi|Hi]; [left; exact Hi|].
      apply elem_of_cons in Hi as [Hi|Hi]; [contradiction|right; exact Hi].
Qed.

Lemma boot_state MAX_SYSCALL_NUM n starts (m : TaskManager) :
  TaskManager_new MAX_SYSCALL_NUM n starts = Ret m ->
  wf m /\ num_app m = n /\ current_task m = 0 /\
  stats m = replicate MAX_TASK_NUM (TaskStat_default MAX_SYSCALL_NUM) /\
  (forall i, i < n -> tcbs m !! i = Some Ready).
Proof.
  intros H. destruct (load_tasks_fields _ _ _ H) as (Hn & Hc & Hs & Hl & Hr).
  cbn [num_app current_task stats tcbs] in *. rewrite length_replicate in Hl.
  assert (Hready : forall i, i < n -> tcbs m !! i = Some Ready).
  { intros i Hi. apply Hr. right. apply elem_of_seq. lia. }
  assert (Hnle : n <= MAX_TASK_NUM).
  { destruct n as [|n]; [unfold MAX_TASK_NUM; lia|].
    specialize (Hready n ltac:(lia)). apply lookup_lt_Some in Hready. lia. }
  split; [|auto].
  unfold wf. rewrite Hs, length_replicate. unfold MAX_TASK_NUM in *. lia.
Qed.

(** C9. [run_first_task] is called on the state built by
    [TaskManager::new]. There, a Ready task exists exactly when
    [num_app > 0], which is what the code tests. Without a Ready task it
    reports completion and powers off with no switch. Otherwise it makes
    task 0 Running and current, begins task 0's stats window at the clock
    read [t2], programs the next timer interrupt, and ends in a switch from
    the throwaway context into task 0. Nothing follows that switch. *)
Theorem run_first_task_behaviour CLOCK_FREQ MAX_SYSCALL_NUM n starts (m : TaskManager) t1 t2 t3 :
  TaskManager_new MAX_SYSCALL_NUM n starts = Ret m ->
  ((Ready ∉ tcbs m) ->
   run_first_task CLOCK_FREQ m t1 t2 t3 = Shutdown ["[kernel] All apps have completed."]) /\
  (Ready ∈ tcbs m ->
   exists m',
     run_first_task CLOCK_FREQ m t1 t2 t3 =
       Ret (m', [SetTimer (usize_wrap (t3 + CLOCK_FREQ / TICKS_PER_SEC));
                 Switch CxUnused (CxOf 0)]) /\
     current_task m' = 0 /\ tcbs m' !! 0 = Some Running /\
     stats m' !! 0 = Some (record_schedule_begin t2 (TaskStat_default MAX_SYSCALL_NUM))).
Proof.
  intros Hboot.
  destruct (boot_state _ _ _ _ Hboot) as (Hwf & Hn & Hc & Hs & Hr).
  assert (Hiff : Ready ∈ tcbs m <-> 0 < n).
  { split.
    - intros Hin. destruct n as [|n]; [|lia]. exfalso.
      unfold TaskManager_new in Hboot. cbn [seq load_tasks] in Hboot. injection Hboot as <-.
      revert Hin. apply (bool_decide_unpack (Ready ∉ _)). vm_compute. exact I.
    - intros Hpos. eapply list_elem_of_lookup_2. exact (Hr 0 Hpos). }
  split.
  - intros Hnr. assert (H0 : num_app m = 0).
    { rewrite Hn. destruct n; [reflexivity|]. exfalso. apply Hnr, Hiff. lia. }
    unfold run_first_task. rewrite H0. reflexivity.
  - intros Hin. apply Hiff in Hin as Hpos.
    assert (Hs0 : stats m !! current_task m = Some (TaskStat_default MAX_SYSCALL_NUM)).
    { rewrite Hs, Hc. apply lookup_replicate_2. unfold MAX_TASK_NUM. lia. }
    destruct (move_to_next_task_spec m 0 t1 t2 _ Hwf (Hr 0 Hpos) Hs0
                ltac:(intros l Hl; discriminate Hl))
      as (ended & m' & He & Hm & Hcur & _ & _ & Ht & Hst).
    exists m'. split.
    { unfold run_first_task. destruct (decide (0 < num_app m)); [|lia]. cbn [obind].
      rewrite Hm, Hc. reflexivity. }
    split; [exact Hcur|]. split; [rewrite Ht; reflexivity|].
    rewrite Hst. cbv zeta. rewrite Hc. cbn in He. injection He as <-. reflexivity.
Qed.

Lemma run_first_task_behaviour_witness :
  TaskManager_new 5 3 [0; 10; 20; 30]%N = Ret mgr3 /\ Ready ∈ tcbs mgr3 /\
  exists m',
    run_first_task 1000 mgr3 0 1 2 =
      Ret (m', [SetTimer (usize_wrap (2 + 1000 / TICKS_PER_SEC)); Switch CxUnused (CxOf 0)]).
Proof.
  assert (Hb : TaskManager_new 5 3 [0; 10; 20; 30]%N = Ret mgr3) by reflexivity.
  assert (Hin : Ready ∈ tcbs mgr3).
  { apply (list_elem_of_lookup_2 _ 0). vm_compute. reflexivity. }
  split; [exact Hb|]. split; [exact Hin|].
  destruct (proj2 (run_first_task_behaviour 1000 5 3 _ mgr3 0 1 2 Hb) Hin)
    as (m' & Hrun & _).
  exists m'. exact Hrun.
Defined.

(** * Further properties of the task manager *)

(** ** Well-formedness of reachable states *)

Lemma move_wf (m : TaskManager) next t1 t2 m' cxs :
  wf m -> move_to_next_task m next t1 t2 = Ret (m', cxs) -> wf m'.
Proof.
  intros (Hlt & Hls & Hn & Hc) H.
  destruct (move_to_next_task_inv _ _ _ _ _ _ H)
    as (sc & s_cur & ended & Hsc & _ & _ & H1 & Ht & (sn & _ & Hs) & Hcur & Hnum & _).
  apply lookup_lt_Some in H1.
  assert (Hl1 : length (if decide (sc = Running) then <[current_task m := Ready]> (tcbs m)
                        else tcbs m) = length (tcbs m))
    by (destruct (decide _); rewrite ?length_insert; reflexivity).
  rewrite Hl1 in H1. unfold wf.
  rewrite Ht, Hs, Hcur, Hnum, !length_insert, Hl1. lia.
Qed.

Lemma step_wf CLOCK_FREQ (m m' : TaskManager) : wf m -> step CLOCK_FREQ m m' -> wf m'.
Proof.
  intros Hwf Hs. destruct Hs as [m i m' H|m next t1 t2 m' cxs H|m sc m' H
                                 |m t1 t2 t3 m' evs H|m t1 t2 t3 m' evs H|m t1 t2 t3 m' evs H].
  - destruct (load_task_inv _ _ _ H) as [_ ->]. unfold wf in *.
    cbn [tcbs stats num_app current_task set_tcbs]. rewrite length_insert. exact Hwf.
  - eapply move_wf; eauto.
  - destruct (record_syscall_inv _ _ _ H) as (st & st' & _ & _ & ->). unfold wf in *.
    cbn [tcbs stats num_app current_task set_stats]. rewrite length_insert. exact Hwf.
  - destruct (run_first_task_inv _ _ _ _ _ _ _ H) as [cxs Hm]. eapply move_wf; eauto.
  - destruct (run_next_task_inv _ _ _ _ _ _ _ H) as (next & cxs & _ & Hm).
    eapply move_wf; eauto.
  - destruct (exit_and_run_next_inv _ _ _ _ _ _ _ H) as [_ Hr].
    destruct (run_next_task_inv _ _ _ _ _ _ _ Hr) as (next & cxs & _ & Hm).
    eapply move_wf; [|exact Hm]. unfold wf in *.
    cbn [tcbs stats num_app current_task set_tcbs]. rewrite length_insert. exact Hwf.
Qed.

(** Every state reachable from [TaskManager::new] through the public
    operations has 32 task slots and 32 stats, at most 32 applications and
    a current task index below 32 (the hypotheses of the scheduling
    theorems above). *)
Theorem reachable_wf MAX_SYSCALL_NUM CLOCK_FREQ (m : TaskManager) :
  reachable MAX_SYSCALL_NUM CLOCK_FREQ m -> wf m.
Proof.
  induction 1 as [n starts m Hboot|m m' _ IH Hs].
  - exact (proj1 (boot_state _ _ _ _ Hboot)).
  - eapply step_wf; eauto.
Qed.

Lemma reachable_wf_witness : reachable 5 0 mgr3 /\ wf mgr3.
Proof.
  assert (Hr : reachable 5 0 mgr3) by (apply (reach_boot 5 0 3 [0; 10; 20; 30]%N); reflexivity).
  split; [exact Hr|]. exact (reachable_wf 5 0 mgr3 Hr).
Defined.

(** ** Boot state of [TaskManager::new] *)

Definition boot_tcbs (n : nat) : list TaskStatus :=
  replicate n Ready ++ replicate (MAX_TASK_NUM - n) UnInit.

(** When [TaskManager::new] succeeds with [num_app = n], there are at most
    32 applications; slots [0..n] are Ready and the others UnInit; task 0
    is current and every task has zeroed statistics. *)
Theorem task_manager_new_layout MAX_SYSCALL_NUM n starts (m : TaskManager) :
  TaskManager_new MAX_SYSCALL_NUM n starts = Ret m ->
  n <= MAX_TASK_NUM /\ num_app m = n /\ current_task m = 0 /\ app_starts m = starts /\
  tcbs m = boot_tcbs n /\
  stats m = replicate MAX_TASK_NUM (TaskStat_default MAX_SYSCALL_NUM).
Proof.
  intros H. destruct (boot_state _ _ _ _ H) as ((Hl & _ & Hn & _) & Hnum & Hc & Hs & Hr).
  destruct (load_tasks_fields _ _ _ H) as (_ & _ & _ & _ & Hr').
  assert (Happ : forall ids (m0 m1 : TaskManager),
            load_tasks m0 ids = Ret m1 -> app_starts m1 = app_starts m0).
  { induction ids as [|x ids IH]; intros m0 m1 Hx; cbn in Hx.
    - injection Hx as <-. reflexivity.
    - ret_inv Hx. destruct (load_task_inv _ _ _ E) as [_ ->]. apply IH in Hx. exact Hx. }
  subst n. repeat split; auto.
  - apply Happ in H. exact H.
  - apply list_eq. intros i. unfold boot_tcbs.
    destruct (decide (i < num_app m)) as [Hi|Hi].
    + rewrite Hr by exact Hi. rewrite lookup_app_l by (rewrite length_replicate; lia).
      symmetry. apply lookup_replicate_2. exact Hi.
    + rewrite lookup_app_r by (rewrite length_replicate; lia). rewrite length_replicate.
      (* slots from n on keep the UnInit written by [Default] *)
      assert (Hkeep : forall ids (m0 m1 : TaskManager), load_tasks m0 ids = Ret m1 ->
                (forall j, j ∈ ids -> j <> i) -> tcbs m1 !! i = tcbs m0 !! i).
      { induction ids as [|x ids IH]; intros m0 m1 Hx Hni; cbn in Hx.
        - injection Hx as <-. reflexivity.
        - ret_inv Hx. destruct (load_task_inv _ _ _ E) as [_ ->].
          rewrite (IH _ _ Hx). 2: { intros j Hj. apply Hni. apply elem_of_cons. auto. }
          cbn [tcbs set_tcbs]. apply list_lookup_insert_ne.
          intros <-. apply (Hni x); [apply elem_of_cons; auto | reflexivity]. }
      rewrite (Hkeep _ _ _ H). 2: { intros j Hj. apply elem_of_seq in Hj. lia. }
      cbn [tcbs].
      destruct (decide (i < MAX_TASK_NUM)) as [Hi'|Hi'].
      * rewrite !lookup_replicate_2 by lia. reflexivity.
      * rewrite (proj1 (lookup_replicate_None _ _ _)) by lia.
        rewrite (proj1 (lookup_replicate_None _ _ _)) by lia. reflexivity.
Qed.

Lemma task_manager_new_layout_witness :
  TaskManager_new 5 3 [0; 10; 20; 30]%N = Ret mgr3 /\ tcbs mgr3 = boot_tcbs 3.
Proof.
  assert (Hb : TaskManager_new 5 3 [0; 10; 20; 30]%N = Ret mgr3) by reflexivity.
  split; [exact Hb|].
  exact (proj1 (proj2 (proj2 (proj2 (proj2 (task_manager_new_layout 5 3 _ _ Hb)))))).
Defined.

Lemma load_tasks_app (m : TaskManager) l1 l2 :
  load_tasks m (l1 ++ l2) = obind (load_tasks m l1) (fun m' => load_tasks m' l2).
Proof.
  revert m. induction l1 as [|x l1 IH]; intros m; cbn; [reflexivity|].
  destruct (load_task m x); cbn; auto.
Qed.

Lemma load_tasks_ok ids : forall (m : TaskManager),
  (forall i, i ∈ ids -> i + 1 < length (app_starts m) /\ i < length (tcbs m)) ->
  exists m', load_tasks m ids = Ret m' /\ app_starts m' = app_starts m /\
    length (tcbs m') = length (tcbs m).
Proof.
  induction ids as [|x ids IH]; intros m Hin; cbn.
  - eauto.
  - destruct (Hin x ltac:(apply elem_of_cons; auto)) as [Ha Ht].
    destruct (lookup_lt_is_Some' (app_starts m) x) as [a Ea]; [lia|].
    destruct (lookup_lt_is_Some' (app_starts m) (x + 1)) as [b Eb]; [lia|].
    destruct (lookup_lt_is_Some' (tcbs m) x) as [c Ec]; [lia|].
    unfold load_task at 1. rewrite (index_some _ _ _ Ea), (index_some _ _ _ Eb),
      (index_some _ _ _ Ec). cbn [obind].
    destruct (IH (set_tcbs m (<[x := Ready]> (tcbs m)))) as (m' & Hm' & Ha' & Hl').
    { intros i Hi. cbn [app_starts tcbs set_tcbs]. rewrite length_insert.
      apply Hin. apply elem_of_cons. auto. }
    exists m'. cbn [app_starts tcbs set_tcbs] in *. rewrite length_insert in Hl'. auto.
Qed.

(** With more than [MAX_TASK_NUM = 32] applications in the image table
    ([num_app + 1] entries), [TaskManager::new] panics: [load_task 32]
    writes [tcbs[32]], which is out of bounds. *)
Theorem task_manager_new_too_many_apps MAX_SYSCALL_NUM n starts :
  MAX_TASK_NUM < n -> length starts = n + 1 ->
  TaskManager_new MAX_SYSCALL_NUM n starts = Panic "index out of bounds".
Proof.
  intros Hn Hlen. unfold TaskManager_new.
  replace n with (MAX_TASK_NUM + S (n - S MAX_TASK_NUM)) at 2 by lia.
  rewrite seq_app, load_tasks_app.
  destruct (load_tasks_ok (seq 0 MAX_TASK_NUM)
              (mkTaskManager starts n 0 (replicate MAX_TASK_NUM UnInit)
                 (replicate MAX_TASK_NUM (TaskStat_default MAX_SYSCALL_NUM))))
    as (m' & Hm' & Ha & Hl).
  { intros i Hi. apply elem_of_seq in Hi. cbn [app_starts tcbs].
    rewrite length_replicate. lia. }
  rewrite Hm'. cbn [obind seq load_tasks]. rewrite Nat.add_0_l.
  cbn [tcbs app_starts] in Ha, Hl. rewrite length_replicate in Hl.
  destruct (lookup_lt_is_Some' (app_starts m') MAX_TASK_NUM) as [a Ea]; [rewrite Ha; lia|].
  destruct (lookup_lt_is_Some' (app_starts m') (MAX_TASK_NUM + 1)) as [b Eb];
    [rewrite Ha; lia|].
  unfold load_task. rewrite (index_some _ _ _ Ea), (index_some _ _ _ Eb). cbn [obind].
  unfold index at 1. rewrite lookup_ge_None_2 by lia. reflexivity.
Qed.

Lemma task_manager_new_too_many_apps_witness :
  (MAX_TASK_NUM < 33 /\ length (map N.of_nat (seq 0 34)) = 33 + 1) /\
  TaskManager_new 5 33 (map N.of_nat (seq 0 34)) = Panic "index out of bounds".
Proof.
  split; [split; [unfold MAX_TASK_NUM; lia | reflexivity]|].
  apply task_manager_new_too_many_apps; [unfold MAX_TASK_NUM; lia|].
  rewrite length_map, length_seq. reflexivity.
Defined.

(** ** Result of [find_next_task] *)

Lemma scan_ready_range ts n f : forall idx j,
  scan_ready ts n f idx = Ret (Some j) -> idx < n -> j < n.
Proof.
  induction f as [|f IH]; intros idx j H Hi; cbn in H; [discriminate|].
  ret_inv H.
  - injection H as <-. exact Hi.
  - unfold rem_usize in E0. destruct (decide (n = 0)); [discriminate|].
    injection E0 as <-. eapply IH; [exact H|]. apply Nat.mod_upper_bound. lia.
Qed.

(** Whenever [find_next_task] returns [Some j], either [j] is a Ready slot
    below [num_app], or [j] is the current task and it is Running: it never
    selects an UnInit or Exited slot, nor a Ready slot beyond [num_app]. *)
Theorem find_next_task_selects (m : TaskManager) j :
  find_next_task m = Ret (Some j) ->
  (tcbs m !! j = Some Ready /\ j < num_app m) \/
  (j = current_task m /\ tcbs m !! j = Some Running).
Proof.
  unfold find_next_task. intros H. ret_inv H.
  unfold rem_usize in E. destruct (decide (num_app m = 0)); [discriminate|].
  injection E as <-. destruct a0 as [j'|].
  - injection H as <-. left. split; [eapply scan_ready_some; exact E0|].
    eapply scan_ready_range; [exact E0|]. apply Nat.mod_upper_bound. lia.
  - ret_inv H. injection H as <-.
    match goal with Hx : index _ _ = Ret _ |- _ => apply index_ret in Hx end.
    subst. right; auto.
Qed.

Lemma find_next_task_selects_witness :
  find_next_task mgr3 = Ret (Some 1) /\
  ((tcbs mgr3 !! 1 = Some Ready /\ 1 < num_app mgr3) \/
   (1 = current_task mgr3 /\ tcbs mgr3 !! 1 = Some Running)).
Proof.
  assert (H : find_next_task mgr3 = Ret (Some 1)) by reflexivity.
  split; [exact H|]. exact (find_next_task_selects mgr3 1 H).
Defined.

(** ** Switching succeeds on a Ready target or the Running current task *)

Lemma move_to_next_task_ok (m : TaskManager) next t1 t2 s_cur :
  wf m ->
  tcbs m !! next = Some Ready \/
    (next = current_task m /\ tcbs m !! current_task m = Some Running) ->
  stats m !! current_task m = Some s_cur ->
  (forall last, last_scheduled s_cur = Some last -> (last <= t1)%N) ->
  exists m', move_to_next_task m next t1 t2 = Ret (m', (CxOf (current_task m), CxOf next)).
Proof.
  intros (Hlt & Hls & Hn & Hc) Hnext Hscur Hclock.
  destruct (record_schedule_end_ok s_cur t1 Hclock) as [ended Hend].
  set (cur := current_task m) in *.
  destruct (lookup_lt_is_Some' (tcbs m) cur) as [sc Hsc]; [lia|].
  set (tcbs1 := if decide (sc = Running) then <[cur := Ready]> (tcbs m) else tcbs m).
  assert (H1 : tcbs1 !! next = Some Ready).
  { unfold tcbs1. destruct Hnext as [Hnext|[-> Hrun]].
    - destruct (decide (sc = Running)) as [->|]; [|exact Hnext].
      destruct (decide (cur = next)) as [<-|Hne]; [congruence|].
      rewrite list_lookup_insert_ne; auto.
    - rewrite Hsc in Hrun. injection Hrun as ->.
      destruct (decide (Running = Running)); [|congruence].
      apply list_lookup_insert_eq. lia. }
  assert (Hnlt : next < length (stats m)).
  { apply lookup_lt_Some in H1. unfold tcbs1 in H1.
    destruct (decide _); rewrite ?length_insert in H1; lia. }
  set (stats1 := <[cur := ended]> (stats m)).
  destruct (lookup_lt_is_Some' stats1 next) as [sn Hsn].
  { unfold stats1. rewrite length_insert. lia. }
  eexists. unfold move_to_next_task. fold cur.
  rewrite (index_some _ _ _ Hsc). cbn [obind].
  rewrite (index_some _ _ _ Hscur). cbn [obind]. rewrite Hend. cbn [obind].
  fold tcbs1. rewrite (index_some _ _ _ H1). cbn [obind].
  destruct (decide (Ready = Ready)); [|congruence].
  fold stats1. rewrite (index_some _ _ _ Hsn). cbn [obind]. reflexivity.
Qed.

(** ** Round-robin preemption *)

(** [k] successive timer-tick reschedulings, each a [run_next_task] call
    with its own clock readings [(t_end, t_begin, t_now)]. *)
Fixpoint run_ticks (CLOCK_FREQ : N) (clk : list (N * N * N)) (m : TaskManager)
  : Outcome (TaskManager * list Event) :=
  match clk with
  | [] => Ret (m, [])
  | (t1, t2, t3) :: clk' =>
      r <-- run_next_task CLOCK_FREQ m t1 t2 t3 ;;
      let '(m1, evs1) := r in
      r' <-- run_ticks CLOCK_FREQ clk' m1 ;;
      let '(m2, evs2) := r' in
      Ret (m2, (evs1 ++ evs2)%list)
  end.

(** Indices of the tasks switched to, in order. *)
Fixpoint switch_targets (evs : list Event) : list nat :=
  match evs with
  | [] => []
  | Switch _ (CxOf j) :: evs' => j :: switch_targets evs'
  | _ :: evs' => switch_targets evs'
  end.

(** Non-decreasing clock readings, all at least [lo]. *)
Fixpoint clock_from (lo : N) (clk : list (N * N * N)) : Prop :=
  match clk with
  | [] => True
  | (t1, t2, t3) :: clk' => (lo <= t1 /\ t1 <= t2 /\ t2 <= t3)%N /\ clock_from t3 clk'
  end.

(** [n] applications, all Ready except the current one, which is Running;
    its stats window opened no later than [lo]. *)
Definition rr_state (n : nat) (lo : N) (m : TaskManager) : Prop :=
  num_app m = n /\ 0 < n /\ n <= MAX_TASK_NUM /\ current_task m < n /\
  length (stats m) = MAX_TASK_NUM /\
  tcbs m = <[current_task m := Running]> (boot_tcbs n) /\
  (forall s l, stats m !! current_task m = Some s -> last_scheduled s = Some l -> (l <= lo)%N).

Lemma boot_tcbs_lookup n i :
  n <= MAX_TASK_NUM -> i < n -> boot_tcbs n !! i = Some Ready.
Proof.
  intros Hn Hi. unfold boot_tcbs. rewrite lookup_app_l by (rewrite length_replicate; lia).
  apply lookup_replicate_2. exact Hi.
Qed.

Lemma length_boot_tcbs n : n <= MAX_TASK_NUM -> length (boot_tcbs n) = MAX_TASK_NUM.
Proof. intros Hn. unfold boot_tcbs. rewrite length_app, !length_replicate. lia. Qed.

Lemma rr_state_wf n lo (m : TaskManager) : rr_state n lo m -> wf m.
Proof.
  intros (Hn & Hpos & Hle & Hc & Hls & Ht & _). unfold wf.
  rewrite Ht, length_insert, length_boot_tcbs by exact Hle. lia.
Qed.

Lemma run_next_task_rr CLOCK_FREQ n lo (m : TaskManager) t1 t2 t3 :
  rr_state n lo m -> (lo <= t1 /\ t1 <= t2 /\ t2 <= t3)%N ->
  exists m',
    run_next_task CLOCK_FREQ m t1 t2 t3 =
      Ret (m', [set_next_trigger CLOCK_FREQ t3;
                Switch (CxOf (current_task m)) (CxOf ((current_task m + 1) mod n))]) /\
    current_task m' = (current_task m + 1) mod n /\ rr_state n t2 m'.
Proof.
  intros Hrr Ht. pose proof (rr_state_wf _ _ _ Hrr) as Hwf.
  destruct Hrr as (Hn & Hpos & Hle & Hc & Hls & Htcbs & Hlast).
  set (cur := current_task m) in *. set (j := (cur + 1) mod n).
  assert (Hj : j < n) by (apply Nat.mod_upper_bound; lia).
  assert (Hcur_run : tcbs m !! cur = Some Running)
    by (rewrite Htcbs; apply list_lookup_insert_eq; rewrite length_boot_tcbs; lia).
  (* the scheduling decision *)
  assert (Hfind : find_next_task m = Ret (Some j)).
  { destruct (decide (j = cur)) as [Hjc|Hjc].
    - assert (Hn1 : n = 1).
      { unfold j in Hjc. destruct (decide (cur + 1 < n)).
        - rewrite Nat.mod_small in Hjc by lia. lia.
        - assert (cur + 1 = n) as Heq by lia. rewrite Heq, Nat.Div0.mod_same in Hjc. lia. }
      rewrite find_next_task_no_ready; [| exact Hwf | lia |].
      2: { intros k Hk. assert (k = 0) by lia. subst k.
           rewrite Nat.add_0_r, Hn. fold cur j. rewrite Hjc, Hcur_run. discriminate. }
      fold cur. rewrite Hcur_run. destruct (decide _); [|congruence]. fold cur. rewrite Hjc. reflexivity.
    - assert (Hr : tcbs m !! ((cur + 1 + 0) mod num_app m) = Some Ready).
      { rewrite Nat.add_0_r, Hn. fold j. rewrite Htcbs, list_lookup_insert_ne by congruence.
        apply boot_tcbs_lookup; lia. }
      rewrite (find_next_task_found_first m 0 Hwf ltac:(lia) ltac:(lia) Hr
                 ltac:(intros; lia)).
      rewrite Nat.add_0_r, Hn. reflexivity. }
  destruct (lookup_lt_is_Some' (stats m) cur) as [s_cur Hscur]; [lia|].
  destruct (move_to_next_task_ok m j t1 t2 s_cur Hwf) as [m' Hm].
  { destruct (decide (j = cur)) as [->|Hjc]; [right; auto|left].
    rewrite Htcbs, list_lookup_insert_ne by congruence. apply boot_tcbs_lookup; lia. }
  { exact Hscur. }
  { intros l Hl. specialize (Hlast _ _ Hscur Hl). lia. }
  exists m'. split.
  { unfold run_next_task, find_next_task_or_exit. rewrite Hfind. cbn [obind].
    rewrite Hm. reflexivity. }
  destruct (move_to_next_task_inv _ _ _ _ _ _ Hm)
    as (sc & s0 & ended & Hsc & _ & _ & _ & Ht' & (sn & _ & Hs') & Hcur' & Hnum' & _).
  fold cur in Hsc. rewrite Hcur_run in Hsc. injection Hsc as <-.
  destruct (decide (Running = Running)); [|congruence].
  split; [exact Hcur'|].
  unfold rr_state. rewrite Hcur', Hnum', Ht', Hs', !length_insert.
  repeat split; auto.
  - f_equal. rewrite Htcbs, list_insert_insert_eq. apply list_insert_id.
    apply boot_tcbs_lookup; lia.
  - intros s l Hs Hl. rewrite list_lookup_insert_eq in Hs
      by (rewrite length_insert; apply lookup_lt_Some in Hscur; lia).
    injection Hs as <-. unfold record_schedule_begin in Hl.
    destruct (last_scheduled sn); cbn in Hl; injection Hl as <-; lia.
Qed.

Lemma rr_state_mono n lo lo' (m : TaskManager) :
  (lo <= lo')%N -> rr_state n lo m -> rr_state n lo' m.
Proof.
  intros Hle (H1 & H2 & H3 & H4 & H5 & H6 & H7). repeat split; auto.
  intros s l Hs Hl. specialize (H7 s l Hs Hl). lia.
Qed.

(** Round-robin fairness: with [n] applications, all Ready except the
    Running current task [i], and a non-decreasing clock, [k] timer-tick
    reschedulings switch to tasks [(i+1) mod n, ..., (i+k) mod n] in this
    order, end with task [(i+k) mod n] current, and keep the same shape
    (with [n = 1] the single task keeps running). *)
Theorem round_robin_ticks CLOCK_FREQ n lo (m : TaskManager) clk :
  rr_state n lo m -> clock_from lo clk ->
  exists m' evs lo',
    run_ticks CLOCK_FREQ clk m = Ret (m', evs) /\
    current_task m' = (current_task m + length clk) mod n /\
    rr_state n lo' m' /\
    switch_targets evs = map (fun k => (current_task m + k) mod n) (seq 1 (length clk)).
Proof.
  revert m lo. induction clk as [|[[t1 t2] t3] clk IH]; intros m lo Hrr Hclk.
  - exists m, [], lo. cbn [run_ticks length switch_targets seq map].
    pose proof Hrr as (_ & Hpos & _ & Hc & _).
    rewrite Nat.add_0_r, Nat.mod_small by lia. auto.
  - destruct Hclk as [Ht Hclk].
    destruct (run_next_task_rr CLOCK_FREQ n lo m t1 t2 t3 Hrr Ht) as (m1 & Hrun & Hc1 & Hrr1).
    apply (rr_state_mono n t2 t3) in Hrr1; [|lia].
    destruct (IH m1 t3 Hrr1 Hclk) as (m2 & evs2 & lo2 & Hrun2 & Hc2 & Hrr2 & Hts).
    assert (Hpos : 0 < n) by (destruct Hrr as (_ & Hp & _); exact Hp).
    exists m2, ([set_next_trigger CLOCK_FREQ t3;
                 Switch (CxOf (current_task m)) (CxOf ((current_task m + 1) mod n))]
                ++ evs2)%list, lo2.
    split; [cbn [run_ticks]; rewrite Hrun; cbn [obind]; rewrite Hrun2; reflexivity|].
    split.
    { rewrite Hc2, Hc1, Nat.Div0.add_mod_idemp_l. cbn [length]. f_equal. lia. }
    split; [exact Hrr2|].
    cbn [switch_targets set_next_trigger app length]. rewrite Hts, Hc1.
    cbn [seq map]. f_equal.
    replace (seq 2 (length clk)) with (map S (seq 1 (length clk))) by apply seq_shift.
    rewrite map_map. apply map_ext.
    intros k. rewrite Nat.Div0.add_mod_idemp_l. f_equal. lia.
Qed.

Lemma round_robin_ticks_witness :
  (rr_state 3 0 mgr3_running0 /\ clock_from 0 [(1, 2, 3); (4, 5, 6); (7, 8, 9)]%N) /\
  exists m' evs,
    run_ticks 1000 [(1, 2, 3); (4, 5, 6); (7, 8, 9)]%N mgr3_running0 = Ret (m', evs) /\
    switch_targets evs = [1; 2; 0].
Proof.
  assert (Hrr : rr_state 3 0 mgr3_running0).
  { unfold rr_state. repeat split; try (vm_compute; lia); try reflexivity.
    intros s l Hs Hl. vm_compute in Hs. injection Hs as <-.
    vm_compute in Hl. injection Hl as <-. lia. }
  assert (Hc : clock_from 0 [(1, 2, 3); (4, 5, 6); (7, 8, 9)]%N)
    by (cbn; repeat split; lia).
  split; [split; [exact Hrr | exact Hc]|].
  destruct (round_robin_ticks 1000 3 0 mgr3_running0 _ Hrr Hc)
    as (m' & evs & lo' & Hrun & _ & _ & Hts).
  exists m', evs. split; [exact Hrun|]. rewrite Hts. reflexivity.
Defined.

Lemma set_exited_wf (m : TaskManager) :
  wf m -> wf (set_tcbs m (<[current_task m := Exited]> (tcbs m))).
Proof.
  intros (Hlt & Hls & Hn & Hc). unfold wf; cbn [tcbs stats num_app current_task set_tcbs].
  rewrite length_insert. auto.
Qed.

Lemma exit_index_ok (m : TaskManager) :
  wf m -> exists s, index (tcbs m) (current_task m) = Ret s.
Proof.
  intros (Hlt & _ & _ & Hc).
  destruct (lookup_lt_is_Some' (tcbs m) (current_task m)) as [s Hs]; [lia|].
  exists s. apply index_some, Hs.
Qed.

(** [exit_and_run_next] on the last live task: when no slot other than the
    current one is Ready among the [num_app] applications, marking the
    current task Exited leaves nothing to run, and the kernel prints the
    completion message and powers off, whatever the current task's status
    was and whatever the clock reads. *)
Theorem exit_last_task_shutdown CLOCK_FREQ (m : TaskManager) t1 t2 t3 :
  wf m -> 0 < num_app m ->
  (forall j, j < num_app m -> j <> current_task m -> tcbs m !! j <> Some Ready) ->
  exit_and_run_next CLOCK_FREQ m t1 t2 t3 = Shutdown ["[kernel] All apps have completed."].
Proof.
  intros Hwf Hpos Hnr.
  destruct (exit_index_ok m Hwf) as [s Hs].
  pose proof Hwf as (Hlt & _ & _ & Hc).
  unfold exit_and_run_next. rewrite Hs. cbn [obind].
  set (m1 := set_tcbs m (<[current_task m := Exited]> (tcbs m))).
  assert (Hcur1 : tcbs m1 !! current_task m1 = Some Exited).
  { cbn [m1 set_tcbs tcbs current_task]. apply list_lookup_insert_eq. lia. }
  assert (Hf : find_next_task m1 = Ret None).
  { assert (Hnone : forall k, k < num_app m1 ->
             tcbs m1 !! ((current_task m1 + 1 + k) mod num_app m1) <> Some Ready).
    { intros k Hk. set (j := (current_task m1 + 1 + k) mod num_app m1).
      destruct (decide (j = current_task m1)) as [Heq|Hne].
      - rewrite Heq, Hcur1. discriminate.
      - assert (Hj : j < num_app m) by (apply Nat.mod_upper_bound; cbn in *; lia).
        cbn [m1 set_tcbs tcbs current_task num_app] in *.
        rewrite list_lookup_insert_ne by congruence. apply Hnr; assumption. }
    rewrite (find_next_task_no_ready m1 (set_exited_wf m Hwf) Hpos Hnone).
    rewrite Hcur1. reflexivity. }
  unfold run_next_task, find_next_task_or_exit. rewrite Hf. reflexivity.
Qed.

(** Three applications; task 2 is current and Running, tasks 0 and 1 have
    exited. *)
Definition mgr3_last2 : TaskManager :=
  set_current (set_tcbs mgr3 ([Exited; Exited; Running] ++ replicate 29 UnInit)%list) 2.

Lemma exit_last_task_shutdown_witness :
  (wf mgr3_last2 /\ 0 < num_app mgr3_last2 /\
   (forall j, j < num_app mgr3_last2 -> j <> current_task mgr3_last2 ->
      tcbs mgr3_last2 !! j <> Some Ready)) /\
  exit_and_run_next 1000 mgr3_last2 1 2 3 = Shutdown ["[kernel] All apps have completed."].
Proof.
  assert (Hwf : wf mgr3_last2) by (unfold wf; vm_compute; lia).
  assert (Hpos : 0 < num_app mgr3_last2) by (vm_compute; lia).
  assert (Hnr : forall j, j < num_app mgr3_last2 -> j <> current_task mgr3_last2 ->
                  tcbs mgr3_last2 !! j <> Some Ready).
  { intros j Hj Hne. vm_compute in Hj, Hne.
    destruct j as [|[|[|j]]]; vm_compute; try discriminate; lia. }
  split; [auto|].
  apply (exit_last_task_shutdown 1000 mgr3_last2 1 2 3 Hwf Hpos Hnr).
Defined.

(** [exit_and_run_next] with work left: if the [k]-th slot of the cyclic
    scan after the current task is Ready, not the current task, and every
    earlier slot of the scan is the current task or not Ready, then the
    current task ends Exited, that slot becomes the Running current task,
    every other status is kept, and the platform sees the timer re-armed and
    a switch from the old task's context to the new one's. *)
Theorem exit_switches_to_next CLOCK_FREQ (m : TaskManager) t1 t2 t3 k s_cur :
  wf m -> k < num_app m ->
  (current_task m + 1 + k) mod num_app m <> current_task m ->
  tcbs m !! ((current_task m + 1 + k) mod num_app m) = Some Ready ->
  (forall k', k' < k ->
     (current_task m + 1 + k') mod num_app m = current_task m \/
     tcbs m !! ((current_task m + 1 + k') mod num_app m) <> Some Ready) ->
  stats m !! current_task m = Some s_cur ->
  (forall last, last_scheduled s_cur = Some last -> (last <= t1)%N) ->
  exists m',
    exit_and_run_next CLOCK_FREQ m t1 t2 t3 =
      Ret (m', [set_next_trigger CLOCK_FREQ t3;
                Switch (CxOf (current_task m))
                       (CxOf ((current_task m + 1 + k) mod num_app m))]) /\
    current_task m' = (current_task m + 1 + k) mod num_app m /\
    tcbs m' !! current_task m' = Some Running /\
    tcbs m' !! current_task m = Some Exited /\
    (forall i, i <> current_task m' -> i <> current_task m -> tcbs m' !! i = tcbs m !! i).
Proof.
  intros Hwf Hk Hjne Hj Hfirst Hscur Hclock.
  destruct (exit_index_ok m Hwf) as [s Hs].
  pose proof Hwf as (Hlt & _ & _ & Hc).
  set (cur := current_task m) in *.
  set (j := (cur + 1 + k) mod num_app m) in *.
  set (m1 := set_tcbs m (<[cur := Exited]> (tcbs m))).
  assert (Hwf1 : wf m1) by (apply set_exited_wf; exact Hwf).
  assert (Hl1 : forall i, tcbs m1 !! i = if decide (i = cur) then Some Exited else tcbs m !! i).
  { intros i. cbn [m1 set_tcbs tcbs]. destruct (decide (i = cur)) as [->|Hne].
    - apply list_lookup_insert_eq. lia.
    - apply list_lookup_insert_ne. congruence. }
  assert (Hj1 : tcbs m1 !! j = Some Ready).
  { rewrite Hl1. destruct (decide (j = cur)); [contradiction | exact Hj]. }
  assert (Hf : find_next_task m1 = Ret (Some j)).
  { apply (find_next_task_found_first m1 k Hwf1); cbn [m1 set_tcbs num_app current_task]; try lia.
    - exact Hj1.
    - intros k' Hk'. rewrite Hl1. fold cur.
      destruct (decide _) as [_|Hne]; [discriminate|].
      destruct (Hfirst k' Hk'); [contradiction | assumption]. }
  assert (Hsc1 : stats m1 !! current_task m1 = Some s_cur) by exact Hscur.
  destruct (move_to_next_task_spec m1 j t1 t2 s_cur Hwf1 Hj1 Hsc1 Hclock)
    as (ended & m' & _ & Hmove & Hcur' & _ & _ & Ht' & _).
  exists m'. split.
  { unfold exit_and_run_next. fold cur. rewrite Hs. cbn [obind]. fold m1.
    unfold run_next_task, find_next_task_or_exit. rewrite Hf. cbn [obind].
    rewrite Hmove. reflexivity. }
  split; [exact Hcur'|].
  rewrite Hcur'. split; [|split].
  - rewrite Ht'. destruct (decide (j = j)); [reflexivity | congruence].
  - rewrite Ht'. cbn [m1 set_tcbs current_task]. fold cur.
    destruct (decide (cur = j)) as [Heq|_]; [symmetry in Heq; contradiction|].
    destruct (decide (cur = cur)); [|congruence].
    rewrite Hl1. destruct (decide (cur = cur)); [|congruence].
    destruct (decide (Some Exited = Some Running)); [discriminate | reflexivity].
  - intros i Hij Hic. rewrite Ht'. cbn [m1 set_tcbs current_task]. fold cur.
    destruct (decide (i = j)); [contradiction|].
    destruct (decide (i = cur)); [contradiction|].
    rewrite Hl1. destruct (decide (i = cur)); [contradiction | reflexivity].
Qed.

Lemma exit_switches_to_next_witness :
  (wf mgr3_running0 /\ 0 < num_app mgr3_running0 /\
   (current_task mgr3_running0 + 1 + 0) mod num_app mgr3_running0 <> current_task mgr3_running0 /\
   tcbs mgr3_running0 !! ((current_task mgr3_running0 + 1 + 0) mod num_app mgr3_running0)
     = Some Ready /\
   stats mgr3_running0 !! current_task mgr3_running0 = Some stat_after_begin0) /\
  exists m',
    exit_and_run_next 1000 mgr3_running0 1 2 3 =
      Ret (m', [set_next_trigger 1000 3; Switch (CxOf 0) (CxOf 1)]) /\
    current_task m' = 1 /\ tcbs m' !! 0 = Some Exited.
Proof.
  assert (Hwf : wf mgr3_running0) by (unfold wf; vm_compute; lia).
  assert (Hk : 0 < num_app mgr3_running0) by (vm_compute; lia).
  assert (Hne : (current_task mgr3_running0 + 1 + 0) mod num_app mgr3_running0
                <> current_task mgr3_running0) by (vm_compute; lia).
  assert (Hj : tcbs mgr3_running0 !! ((current_task mgr3_running0 + 1 + 0) mod num_app mgr3_running0)
               = Some Ready) by (vm_compute; reflexivity).
  assert (Hsc : stats mgr3_running0 !! current_task mgr3_running0 = Some stat_after_begin0)
    by (vm_compute; reflexivity).
  split; [auto|].
  destruct (exit_switches_to_next 1000 mgr3_running0 1 2 3 0 stat_after_begin0
              Hwf Hk Hne Hj (fun k' Hk' => False_ind _ (Nat.nlt_0_r k' Hk')) Hsc)
    as (m' & Hrun & Hcur & _ & Hex & _).
  { intros last Hl. vm_compute in Hl. injection Hl as <-. lia. }
  exists m'. split; [exact Hrun|]. split; [exact Hcur | exact Hex].
Defined.

(** ** Clocked runs *)

(** [TaskStat::real_time]: time since the task was first scheduled, [0]
    if it never was; [checked_sub(..).expect(..)] panics when the clock
    went backward. *)
Definition real_time (now : N) (s : TaskStat) : Outcome N :=
  match first_scheduled s with
  | Some first => if decide (now < first)%N then Panic "time goes backward" else Ret (now - first)%N
  | None => Ret 0%N
  end.

(** Transitions with the clock made explicit: [tstep T m T' m'] runs one
    public operation from [m] when the last clock read was [T]; the
    operation's own reads are [usize] values ([time::get_time] returns a
    [usize]) taken in order, and [T'] is its last read. *)
Inductive tstep (CLOCK_FREQ : N) : N -> TaskManager -> N -> TaskManager -> Prop :=
| tstep_load T m i m' :
    load_task m i = Ret m' -> tstep CLOCK_FREQ T m T m'
| tstep_move T m next t1 t2 m' cxs :
    (T <= t1 /\ t1 <= t2 /\ t2 <= usize_max)%N ->
    move_to_next_task m next t1 t2 = Ret (m', cxs) -> tstep CLOCK_FREQ T m t2 m'
| tstep_record_syscall T m sc m' :
    record_syscall m sc = Ret m' -> tstep CLOCK_FREQ T m T m'
| tstep_run_first T m t1 t2 t3 m' evs :
    (T <= t1 /\ t1 <= t2 /\ t2 <= t3 /\ t3 <= usize_max)%N ->
    run_first_task CLOCK_FREQ m t1 t2 t3 = Ret (m', evs) -> tstep CLOCK_FREQ T m t3 m'
| tstep_run_next T m t1 t2 t3 m' evs :
    (T <= t1 /\ t1 <= t2 /\ t2 <= t3 /\ t3 <= usize_max)%N ->
    run_next_task CLOCK_FREQ m t1 t2 t3 = Ret (m', evs) -> tstep CLOCK_FREQ T m t3 m'
| tstep_exit T m t1 t2 t3 m' evs :
    (T <= t1 /\ t1 <= t2 /\ t2 <= t3 /\ t3 <= usize_max)%N ->
    exit_and_run_next CLOCK_FREQ m t1 t2 t3 = Ret (m', evs) -> tstep CLOCK_FREQ T m t3 m'.

(** Clocked runs from a successful [TaskManager::new]. *)
Inductive treach (MAX_SYSCALL_NUM : nat) (CLOCK_FREQ : N) : N -> TaskManager -> Prop :=
| treach_boot n starts m :
    TaskManager_new MAX_SYSCALL_NUM n starts = Ret m ->
    treach MAX_SYSCALL_NUM CLOCK_FREQ 0 m
| treach_step T m T' m' :
    treach MAX_SYSCALL_NUM CLOCK_FREQ T m -> tstep CLOCK_FREQ T m T' m' ->
    treach MAX_SYSCALL_NUM CLOCK_FREQ T' m'.

(** Accounting of one task's window at clock [T]: never scheduled means
    nothing counted; otherwise the counted time fits in the span since the
    first scheduling, up to [last_scheduled] for the open window of the
    current task and up to [T] for the others. *)
Definition stat_clock_ok (T : N) (is_cur : bool) (s : TaskStat) : Prop :=
  match last_scheduled s with
  | None => first_scheduled s = None /\ cpu_clocks s = 0%N
  | Some l => exists f, first_scheduled s = Some f /\ (f <= l /\ l <= T)%N /\
      (cpu_clocks s <= if is_cur then l - f else T - f)%N
  end.

Definition clock_inv (T : N) (m : TaskManager) : Prop :=
  (T <= usize_max)%N /\
  forall i s, stats m !! i = Some s -> stat_clock_ok T (bool_decide (i = current_task m)) s.

Lemma stat_clock_ok_mono T T' b (s : TaskStat) :
  (T <= T')%N -> stat_clock_ok T b s -> stat_clock_ok T' b s.
Proof.
  unfold stat_clock_ok. intros HT. destruct (last_scheduled s) as [l|]; [|auto].
  intros (f & Hf & Hfl & Hc). exists f. split; [exact Hf|]. split; [lia|].
  destruct b; lia.
Qed.

Lemma stat_clock_ok_demote T b (s : TaskStat) :
  stat_clock_ok T b s -> stat_clock_ok T false s.
Proof.
  unfold stat_clock_ok. destruct (last_scheduled s) as [l|]; [|auto].
  intros (f & Hf & Hfl & Hc). exists f. split; [exact Hf|]. split; [lia|].
  destruct b; lia.
Qed.

Lemma clock_inv_later T T' (m : TaskManager) :
  (T <= T' /\ T' <= usize_max)%N -> clock_inv T m -> clock_inv T' m.
Proof.
  intros HT [_ Hinv]. split; [lia|]. intros i s Hi.
  apply (stat_clock_ok_mono T); [lia | exact (Hinv _ _ Hi)].
Qed.

Lemma stat_clock_ok_end T t (s s' : TaskStat) :
  (T <= t /\ t <= usize_max)%N -> stat_clock_ok T true s ->
  record_schedule_end t s = Ret s' -> stat_clock_ok t false s'.
Proof.
  unfold stat_clock_ok, record_schedule_end. intros Ht.
  destruct (last_scheduled s) as [l|] eqn:El.
  - intros (f & Hf & Hfl & Hc) H. destruct (decide (t < l)%N); [discriminate|].
    injection H as <-. cbn [last_scheduled first_scheduled cpu_clocks].
    exists f. split; [exact Hf|]. split; [lia|].
    unfold usize_wrap, usize_max in *. rewrite N.mod_small by lia. lia.
  - intros Hs H. injection H as <-. rewrite El. exact Hs.
Qed.

Lemma stat_clock_ok_begin T t (s : TaskStat) :
  (T <= t)%N -> stat_clock_ok T false s -> stat_clock_ok t true (record_schedule_begin t s).
Proof.
  unfold stat_clock_ok, record_schedule_begin. intros Ht.
  destruct (last_scheduled s) as [l|] eqn:El; cbn [last_scheduled first_scheduled cpu_clocks].
  - intros (f & Hf & Hfl & Hc). exists f. split; [exact Hf|]. split; lia.
  - intros (_ & Hc). exists t. split; [reflexivity|]. split; lia.
Qed.

Lemma clock_inv_move T (m : TaskManager) next t1 t2 m' cxs :
  clock_inv T m -> (T <= t1 /\ t1 <= t2 /\ t2 <= usize_max)%N ->
  move_to_next_task m next t1 t2 = Ret (m', cxs) -> clock_inv t2 m'.
Proof.
  intros [HT Hinv] Ht H.
  destruct (move_to_next_task_inv _ _ _ _ _ _ H)
    as (sc & s_cur & ended & _ & Hscur & Hend & _ & _ & (s_next & Hsn & Hst) & Hcur & _).
  assert (Hok_end : stat_clock_ok t1 false ended).
  { apply (stat_clock_ok_end T t1 s_cur); [lia | | exact Hend].
    specialize (Hinv _ _ Hscur). rewrite bool_decide_true in Hinv by reflexivity. exact Hinv. }
  assert (Hok1 : forall i s, <[current_task m := ended]> (stats m) !! i = Some s ->
                 stat_clock_ok t1 false s).
  { intros i s Hi. apply list_lookup_insert_Some in Hi.
    destruct Hi as [(_ & <- & _) | (Hne & Hi)]; [exact Hok_end|].
    specialize (Hinv _ _ Hi). apply (stat_clock_ok_mono T t1); [lia|].
    exact (stat_clock_ok_demote _ _ _ Hinv). }
  split; [lia|]. intros i s Hi. rewrite Hst, Hcur in *.
  apply list_lookup_insert_Some in Hi.
  destruct Hi as [(<- & <- & _) | (Hne & Hi)].
  - rewrite bool_decide_true by reflexivity.
    apply (stat_clock_ok_begin t1 t2); [lia | exact (Hok1 _ _ Hsn)].
  - rewrite bool_decide_false by congruence.
    apply (stat_clock_ok_mono t1 t2 false); [lia | exact (Hok1 _ _ Hi)].
Qed.

Lemma clock_inv_step CLOCK_FREQ T (m : TaskManager) T' m' :
  clock_inv T m -> tstep CLOCK_FREQ T m T' m' -> clock_inv T' m'.
Proof.
  intros Hinv Hs. destruct Hs as
    [T m i m' H|T m next t1 t2 m' cxs Ht H|T m sc m' H
    |T m t1 t2 t3 m' evs Ht H|T m t1 t2 t3 m' evs Ht H|T m t1 t2 t3 m' evs Ht H].
  - apply load_task_inv in H as [_ ->]. exact Hinv.
  - exact (clock_inv_move _ _ _ _ _ _ _ Hinv Ht H).
  - destruct (record_syscall_inv _ _ _ H) as (st & st' & Hst & Hrec & ->).
    destruct Hinv as [HT Hinv]. split; [exact HT|].
    unfold stat_record_syscall in Hrec. ret_inv Hrec. injection Hrec as <-.
    intros i s Hi. cbn [set_stats stats current_task] in *.
    apply list_lookup_insert_Some in Hi.
    destruct Hi as [(<- & <- & _) | (_ & Hi)]; [|exact (Hinv _ _ Hi)].
    specialize (Hinv _ _ Hst). exact Hinv.
  - destruct (run_first_task_inv _ _ _ _ _ _ _ H) as [cxs Hm].
    apply (clock_inv_later t2 t3); [lia|].
    apply (clock_inv_move T m 0 t1 t2 m' cxs Hinv); [lia | exact Hm].
  - destruct (run_next_task_inv _ _ _ _ _ _ _ H) as (next & cxs & _ & Hm).
    apply (clock_inv_later t2 t3); [lia|].
    apply (clock_inv_move T m next t1 t2 m' cxs Hinv); [lia | exact Hm].
  - destruct (exit_and_run_next_inv _ _ _ _ _ _ _ H) as [_ Hr].
    destruct (run_next_task_inv _ _ _ _ _ _ _ Hr) as (next & cxs & _ & Hm).
    apply (clock_inv_later t2 t3); [lia|].
    apply (clock_inv_move T (set_tcbs m (<[current_task m := Exited]> (tcbs m))) next t1 t2 m' cxs); [exact Hinv | lia | exact Hm].
Qed.

Lemma treach_clock_inv MAX_SYSCALL_NUM CLOCK_FREQ T (m : TaskManager) :
  treach MAX_SYSCALL_NUM CLOCK_FREQ T m -> clock_inv T m.
Proof.
  induction 1 as [n starts m Hnew|T m T' m' _ IH Hs].
  - destruct (boot_state _ _ _ _ Hnew) as (_ & _ & _ & Hst & _).
    split; [unfold usize_max; lia|]. intros i s Hi. rewrite Hst in Hi.
    apply lookup_replicate in Hi as [-> _]. cbn. auto.
  - exact (clock_inv_step _ _ _ _ _ IH Hs).
Qed.

(** Along any run with a non-decreasing [usize] clock, each task's
    [cpu_clocks] is at most its [real_time] at any later read, which does
    not panic; and closing the current task's window at such a read neither
    panics nor wraps: it adds exactly the elapsed time. *)
Theorem cpu_clocks_within_real_time MAX_SYSCALL_NUM CLOCK_FREQ T (m : TaskManager) i s now :
  treach MAX_SYSCALL_NUM CLOCK_FREQ T m -> stats m !! i = Some s ->
  (T <= now /\ now <= usize_max)%N ->
  (exists r, real_time now s = Ret r /\ (cpu_clocks s <= r)%N) /\
  (i = current_task m ->
   exists s', record_schedule_end now s = Ret s' /\
     cpu_clocks s' = (cpu_clocks s +
       match last_scheduled s with Some l => now - l | None => 0 end)%N).
Proof.
  intros Hr Hi Hnow. destruct (treach_clock_inv _ _ _ _ Hr) as [HT Hinv].
  specialize (Hinv _ _ Hi). unfold stat_clock_ok in Hinv. split.
  - unfold real_time. destruct (last_scheduled s) as [l|].
    + destruct Hinv as (f & -> & Hfl & Hc).
      destruct (decide (now < f)%N); [lia|].
      exists (now - f)%N. split; [reflexivity|].
      destruct (bool_decide _); lia.
    + destruct Hinv as [-> ->]. exists 0%N. split; [reflexivity | lia].
  - intros ->. rewrite bool_decide_true in Hinv by reflexivity.
    unfold record_schedule_end. destruct (last_scheduled s) as [l|].
    + destruct Hinv as (f & _ & Hfl & Hc).
      destruct (decide (now < l)%N); [lia|].
      eexists. split; [reflexivity|]. cbn [cpu_clocks].
      unfold usize_wrap, usize_max in *. apply N.mod_small. lia.
    + eexists. split; [reflexivity|]. lia.
Qed.

Lemma cpu_clocks_within_real_time_witness :
  (treach 5 1000 0 mgr3_running0 /\ stats mgr3_running0 !! 0 = Some stat_after_begin0 /\
   (0 <= 7 /\ 7 <= usize_max)%N) /\
  exists r s', real_time 7 stat_after_begin0 = Ret r /\ (cpu_clocks stat_after_begin0 <= r)%N /\
    record_schedule_end 7 stat_after_begin0 = Ret s' /\ cpu_clocks s' = 7%N.
Proof.
  assert (Hr : treach 5 1000 0 mgr3_running0).
  { apply (treach_step 5 1000 0 mgr3 0 mgr3_running0).
    - apply (treach_boot 5 1000 3 [0; 10; 20; 30]%N). vm_compute. reflexivity.
    - apply (tstep_move 1000 0 mgr3 0 0 0 mgr3_running0 (CxOf 0, CxOf 0));
        [unfold usize_max; lia | vm_compute; reflexivity]. }
  assert (Hs : stats mgr3_running0 !! 0 = Some stat_after_begin0) by (vm_compute; reflexivity).
  assert (Hn : (0 <= 7 /\ 7 <= usize_max)%N) by (unfold usize_max; lia).
  split; [auto|].
  destruct (cpu_clocks_within_real_time 5 1000 0 mgr3_running0 0 stat_after_begin0 7 Hr Hs Hn)
    as [(r & Hrt & Hle) Hend].
  destruct (Hend eq_refl) as (s' & He & Hc).
  exists r, s'. repeat split; auto.
Defined.

(** ** Load addresses *)

Definition APP_BASE_ADDR : N := 0x80400000.
Definition MAX_APP_SIZE : N := 0x20000.

(** [get_task_base]: [APP_BASE_ADDR.add(task_id * MAX_APP_SIZE)]; the
    [usize] product wraps. *)
Definition get_task_base (task_id : nat) : N :=
  (APP_BASE_ADDR + usize_wrap (N.of_nat task_id * MAX_APP_SIZE))%N.

(** The [copy_nonoverlapping(src, dst, count)] of [load_task]: source
    [task_start], destination [get_task_base(task_id)], and count
    [task_end.saturating_sub(task_start)] ([N] subtraction saturates at 0). *)
Definition load_task_copy (m : TaskManager) (task_id : nat) : Outcome (N * N * N) :=
  task_start <-- index (app_starts m) task_id ;;
  task_end <-- index (app_starts m) (task_id + 1) ;;
  Ret (task_start, get_task_base task_id, (task_end - task_start)%N).

Lemma get_task_base_small i :
  i < MAX_TASK_NUM -> get_task_base i = (APP_BASE_ADDR + N.of_nat i * MAX_APP_SIZE)%N.
Proof.
  intros Hi. unfold get_task_base, usize_wrap. f_equal. apply N.mod_small.
  unfold MAX_TASK_NUM, MAX_APP_SIZE in *.
  assert (N.of_nat i < 32)%N by lia. lia.
Qed.

(** The load slots of the [MAX_TASK_NUM] task ids are pairwise disjoint
    [MAX_APP_SIZE]-byte windows, in id order, inside
    [APP_BASE_ADDR .. APP_BASE_ADDR + MAX_TASK_NUM * MAX_APP_SIZE]. *)
Theorem task_slots_disjoint i j :
  i < j -> j < MAX_TASK_NUM ->
  (APP_BASE_ADDR <= get_task_base i)%N /\
  (get_task_base i + MAX_APP_SIZE <= get_task_base j)%N /\
  (get_task_base j + MAX_APP_SIZE <= APP_BASE_ADDR + N.of_nat MAX_TASK_NUM * MAX_APP_SIZE)%N.
Proof.
  intros Hij Hj. rewrite !get_task_base_small by lia.
  unfold MAX_TASK_NUM in *. unfold MAX_APP_SIZE.
  repeat split; nia.
Qed.

Lemma task_slots_disjoint_witness :
  (0 < 31 /\ 31 < MAX_TASK_NUM) /\
  (get_task_base 0 + MAX_APP_SIZE <= get_task_base 31)%N.
Proof.
  assert (H1 : 0 < 31) by lia. assert (H2 : 31 < MAX_TASK_NUM) by (unfold MAX_TASK_NUM; lia).
  split; [auto|]. apply (task_slots_disjoint 0 31 H1 H2).
Defined.

(** [load_task] copies [task_end.saturating_sub(task_start)] bytes to the
    task's slot without comparing that count with [MAX_APP_SIZE]: the copy
    stays inside the slot exactly when the image fits, and a larger image
    overwrites the start of the next slot. *)
Theorem load_task_copy_overflow (m : TaskManager) task_id src dst count :
  task_id + 1 < MAX_TASK_NUM ->
  load_task_copy m task_id = Ret (src, dst, count) ->
  dst = get_task_base task_id /\
  (exists task_end, app_starts m !! task_id = Some src /\
     app_starts m !! (task_id + 1) = Some task_end /\ count = (task_end - src)%N) /\
  ((dst + count <= get_task_base (task_id + 1))%N <-> (count <= MAX_APP_SIZE)%N).
Proof.
  intros Hid H. unfold load_task_copy in H. ret_inv H. injection H as <- <- <-.
  apply index_ret in E, E0. split; [reflexivity|]. split; [eauto|].
  rewrite !get_task_base_small by lia. rewrite Nat2N.inj_add. lia.
Qed.

(** Three 0x30000-byte applications: the first one spills into the slot
    of the second. *)
Definition mgr_big : TaskManager :=
  mkTaskManager [0x80000000; 0x80030000; 0x80060000; 0x80090000]%N 3 0
    (replicate MAX_TASK_NUM UnInit) (replicate MAX_TASK_NUM (TaskStat_default 5)).

Lemma load_task_copy_overflow_witness :
  0 + 1 < MAX_TASK_NUM /\
  load_task_copy mgr_big 0 = Ret (0x80000000, get_task_base 0, 0x30000)%N /\
  (get_task_base 1 < get_task_base 0 + 0x30000)%N.
Proof.
  assert (Hid : 0 + 1 < MAX_TASK_NUM) by (unfold MAX_TASK_NUM; lia).
  assert (H : load_task_copy mgr_big 0 = Ret (0x80000000, get_task_base 0, 0x30000)%N)
    by (vm_compute; reflexivity).
  split; [exact Hid|]. split; [exact H|].
  destruct (load_task_copy_overflow mgr_big 0 _ _ _ Hid H) as (_ & _ & Hfit).
  assert (~ (0x30000 <= MAX_APP_SIZE)%N) by (unfold MAX_APP_SIZE; lia).
  change (0 + 1) with 1 in Hfit. rewrite <- Hfit in *. lia.
Defined.
